(** * pyshowcase: a shallow embedding of [data.py]

    The module crawls a PyPI-style "simple" index: [get_links] fetches a
    page and returns the (label, href) pairs of its anchors,
    [PackageCrawler] builds or reloads the package listing, and [Package]
    picks a package's latest artifact, downloads it into a temporary
    directory and reads its metadata.

    Python values are embedded as follows.
    - [str] and [bytes] are Rocq strings of code units (for text, its UTF-8
      encoding: byte-wise lexicographic order then agrees with Python's
      code-point order, and [rstrip]/[endswith] with ASCII arguments act
      the same on both).
    - Exceptions are an inductive type [exn]; a computation is a function
      from a state to a result-or-exception and a new state.
    - The outside world (HTTP, file system, log sink, the random names of
      [tempfile]) is the record [World].
    - An instance is its class name, the methods of its class and its
      attribute dictionary, so that reading an attribute nobody set
      raises [AttributeError] as it does in Python.
    - Libraries outside the repository ([json], [bs4], [pkginfo]) are
      section variables of the definitions that call them. *)

From Stdlib Require Import ZArith NArith Ascii String List Lia.
From Stdlib Require Import Floats.SpecFloat.
From stdpp Require Import base option list sorting strings gmap fin_maps.

Local Open Scope Z_scope.

(** ** Strings *)

Module Str.

(** [c in chars] *)
Fixpoint mem (c : ascii) (chars : string) : bool :=
  match chars with
  | EmptyString => false
  | String d chars' => Ascii.eqb c d || mem c chars'
  end.

(** [s.rstrip(chars)]: drop the longest run of trailing characters that
    occur in [chars]. *)
Fixpoint rstrip (chars s : string) : string :=
  match s with
  | EmptyString => EmptyString
  | String c s' =>
      match rstrip chars s' with
      | EmptyString => if mem c chars then EmptyString else String c EmptyString
      | r => String c r
      end
  end.

(** [s.endswith(sfx)] *)
Fixpoint endswith (s sfx : string) : bool :=
  String.eqb s sfx ||
  match s with
  | EmptyString => false
  | String _ s' => endswith s' sfx
  end.

(** [s.startswith(c)] for a one-character [c] *)
Definition starts_with_char (c : ascii) (s : string) : bool :=
  match s with
  | EmptyString => false
  | String d _ => Ascii.eqb c d
  end.

(** [s.split(sep)] for a one-character separator *)
Fixpoint split (sep : ascii) (s : string) : list string :=
  match s with
  | EmptyString => [EmptyString]
  | String c s' =>
      if Ascii.eqb c sep then EmptyString :: split sep s'
      else match split sep s' with
           | [] => [String c EmptyString]
           | h :: t => String c h :: t
           end
  end.

(** [s[:len(s)-k]] *)
Definition drop_right (k : nat) (s : string) : string :=
  String.substring 0 (String.length s - k) s.

End Str.

(** ** Exceptions *)

Inductive exn : Type :=
| RequestException (msg : string)     (* requests.exceptions.* *)
| KeyboardInterrupt                   (* a BaseException that is no Exception *)
| UnboundLocalError (name : string)
| AttributeError (type attr : string)
| KeyError (key : string)
| IndexError (msg : string)
| TypeError (msg : string)
| JSONDecodeError
| FileNotFoundError (path : string)
| FileExistsError (path : string)
| IsADirectoryError (path : string)
| NotADirectoryError (path : string)
| ValueError (msg : string).          (* what pkginfo raises on a bad archive *)

(** [isinstance(e, Exception)] *)
Definition is_Exception (e : exn) : bool :=
  match e with
  | KeyboardInterrupt => false
  | _ => true
  end.

Definition result (A : Type) : Type := exn + A.

(** ** Computations with state and exceptions *)

Definition M (S A : Type) : Type := S → result A * S.

Definition ret {S A} (a : A) : M S A := λ s, (inr a, s).

Definition raise {S A} (e : exn) : M S A := λ s, (inl e, s).

Definition bind {S A B} (m : M S A) (k : A → M S B) : M S B :=
  λ s, match m s with
       | (inr a, s') => k a s'
       | (inl e, s') => (inl e, s')
       end.

Definition of_result {S A} (r : result A) : M S A := λ s, (r, s).

(** [try: body  except Exception as e: handler(e)] *)
Definition try_except {S A} (body : M S A) (handler : exn → M S A) : M S A :=
  λ s, match body s with
       | (inl e, s') => if is_Exception e then handler e s' else (inl e, s')
       | r => r
       end.

(** Reading a local variable that an earlier branch may have left
    unassigned. *)
Definition local_var {S A} (name : string) (v : option A) : M S A :=
  match v with
  | Some a => ret a
  | None => raise (UnboundLocalError name)
  end.

Declare Scope py_scope.
Delimit Scope py_scope with py.
Notation "x <- m ;; k" := (bind m (λ x, k))
  (at level 100, m at next level, right associativity) : py_scope.
Notation "m ;;; k" := (bind m (λ _, k))
  (at level 100, right associativity) : py_scope.

(** A list comprehension whose element expression may raise. *)
Fixpoint mapM {S A B} (f : A → M S B) (l : list A) : M S (list B) :=
  match l with
  | [] => ret []
  | a :: l' => (b <- f a ;; bs <- mapM f l' ;; ret (b :: bs))%py
  end.

(** ** The outside world *)

(** What [requests.get] returns. *)
Record Response : Type := mkResponse {
  status_code : Z;
  text : string;       (* the body decoded as text *)
  content : string     (* the raw body *)
}.

(** A [bs4] anchor element: [tag.string] ([None] when the anchor has no
    single text child) and the attribute dictionary behind [tag[key]];
    [href] is not one of the attributes [bs4] splits into lists. *)
Record Tag : Type := mkTag {
  tag_string : option string;
  tag_attrs : gmap string string
}.

(** A (label, href) 2-tuple. *)
Definition Link : Type := option string * string.

Inductive level : Type := DEBUG | ERROR.

Inductive logarg : Type :=
| AStr (s : string)
| ANone
| AInt (z : Z)
| AExn (e : exn).

Definition LogRecord : Type := level * string * list logarg.

(** A file-system entry; keys of the file system are absolute paths as
    lists of components, the root being [[]]. *)
Inductive node : Type :=
| Dir
| File (data : string).

Record World : Type := mkWorld {
  net : string → result Response;    (* what a GET of each URL does *)
  sent : list string;                (* URLs requested so far, oldest first *)
  fs : gmap (list string) node;
  cwd : list string;
  console : list LogRecord;          (* records of this module's logger, oldest first *)
  rand_names : nat → string;         (* the name generator of [tempfile] *)
  rand_pos : nat
}.

Definition set_fs (f : gmap (list string) node) (w : World) : World :=
  mkWorld (net w) (sent w) f (cwd w) (console w) (rand_names w) (rand_pos w).

(** *** HTTP and logging *)

(** [requests.get(url)]: one request goes out, then the response or the
    exception comes back. [sent] lists the URLs handed to [requests.get];
    the records the HTTP library logs on its own are not kept (see
    [log]). *)
Definition requests_get (url : string) : M World Response :=
  λ w, (net w url,
        mkWorld (net w) (sent w ++ [url]) (fs w) (cwd w) (console w)
                (rand_names w) (rand_pos w)).

(** [logger.debug(fmt, *args)] and [logger.error(fmt, *args)] of the
    module-level logger; [basicConfig(level=DEBUG)] lets every record
    through. [console] follows this logger only: what other libraries
    send to the same handler (the HTTP library logs at DEBUG as well) is
    not part of it. *)
Definition log (lvl : level) (fmt : string) (args : list logarg) : M World unit :=
  λ w, (inr tt,
        mkWorld (net w) (sent w) (fs w) (cwd w) (console w ++ [(lvl, fmt, args)])
                (rand_names w) (rand_pos w)).

Definition arg_of (s : option string) : logarg :=
  match s with
  | Some s => AStr s
  | None => ANone
  end.

(** *** Paths and files (POSIX, no symbolic links) *)

Definition path_step (acc : list string) (c : string) : list string :=
  if String.eqb c "" then acc
  else if String.eqb c "." then acc
  else if String.eqb c ".." then removelast acc
  else acc ++ [c].

(** The absolute component list a path name denotes. *)
Definition resolve (cwd : list string) (name : string) : list string :=
  fold_left path_step (Str.split "/" name)
            (if Str.starts_with_char "/" name then [] else cwd).

Definition lookup_node (f : gmap (list string) node) (p : list string) : option node :=
  match p with
  | [] => Some Dir
  | _ => f !! p
  end.

(** [os.path.join(a, b)] *)
Definition os_path_join (a b : string) : string :=
  if Str.starts_with_char "/" b then b
  else if String.eqb a "" then b
  else if Str.endswith a "/" then a +:+ b
  else a +:+ "/" +:+ b.

(** [os.path.exists(name)] *)
Definition os_path_exists (name : string) : M World bool :=
  λ w, (inr (bool_decide (is_Some (lookup_node (fs w) (resolve (cwd w) name)))), w).

(** [with open(name) as f: f.read()] *)
Definition read_file (name : string) : M World string :=
  λ w, match lookup_node (fs w) (resolve (cwd w) name) with
       | Some (File d) => (inr d, w)
       | Some Dir => (inl (IsADirectoryError name), w)
       | None => (inl (FileNotFoundError name), w)
       end.

(** [with open(name, 'w') as f: f.write(data)] (also mode ['wb']): the
    file is created or truncated, then filled. Names are taken to be
    names the system accepts (no NUL character, no component beyond the
    length limit), and [..] is resolved on the name, not on the disk. *)
Definition write_file (name data : string) : M World unit :=
  λ w, let p := resolve (cwd w) name in
       if String.eqb name "" then (inl (FileNotFoundError name), w)
       else if Str.endswith name "/" then (inl (IsADirectoryError name), w)
       else match lookup_node (fs w) p with
            | Some Dir => (inl (IsADirectoryError name), w)
            | _ =>
                match lookup_node (fs w) (removelast p) with
                | Some Dir => (inr tt, set_fs (<[p := File data]> (fs w)) w)
                | Some (File _) => (inl (NotADirectoryError name), w)
                | None => (inl (FileNotFoundError name), w)
                end
            end.

(** [os.mkdir(name)] *)
Definition os_mkdir (name : string) : M World unit :=
  λ w, let p := resolve (cwd w) name in
       match lookup_node (fs w) p with
       | Some _ => (inl (FileExistsError name), w)
       | None =>
           match lookup_node (fs w) (removelast p) with
           | Some Dir => (inr tt, set_fs (<[p := Dir]> (fs w)) w)
           | Some (File _) => (inl (NotADirectoryError name), w)
           | None => (inl (FileNotFoundError name), w)
           end
       end.

(** [shutil.rmtree(name)]: the directory and everything below it go. *)
Definition rmtree (name : string) (w : World) : World :=
  let p := resolve (cwd w) name in
  set_fs (filter (λ kv, ¬ p `prefix_of` kv.1) (fs w)) w.

(** *** Temporary directories

    [tempfile] creates its directories in [/tmp] under the name [tmp]
    followed by eight random characters. *)

Definition TMP_MAX : nat := N.to_nat 10000.

Definition next_name : M World string :=
  λ w, (inr (rand_names w (rand_pos w)),
        mkWorld (net w) (sent w) (fs w) (cwd w) (console w)
                (rand_names w) (Datatypes.S (rand_pos w))).

(** The retry loop of [tempfile.mkdtemp]: draw a name, try to create the
    directory, and draw again when the name is taken. *)
Fixpoint mkdtemp_loop (tries : nat) : M World string :=
  match tries with
  | O => raise (FileExistsError "No usable temporary directory name found")
  | Datatypes.S tries' =>
      (name <- next_name ;;
       let file := "/tmp/tmp" +:+ name in
       λ w, match os_mkdir file w with
            | (inr _, w') => (inr file, w')
            | (inl (FileExistsError _), w') => mkdtemp_loop tries' w'
            | (inl e, w') => (inl e, w')
            end)%py
  end.

Definition mkdtemp : M World string := mkdtemp_loop TMP_MAX.

Global Arguments mkdtemp : simpl never.

(** [with TemporaryDirectory() as tmpdir: body(tmpdir)]: leaving the block,
    normally or by an exception, removes the directory. *)
Definition with_TemporaryDirectory {A} (body : string → M World A) : M World A :=
  λ w, match mkdtemp w with
       | (inl e, w1) => (inl e, w1)
       | (inr tmpdir, w1) =>
           match body tmpdir w1 with
           | (r, w2) => (r, rmtree tmpdir w2)
           end
       end.

(** ** Python values held in object attributes *)

(** What [json.load] can return. *)
#[warnings="-register-all"]
Inductive json : Type :=
| JNull
| JBool (b : bool)
| JInt (z : Z)
| JFloat (f : spec_float)
| JStr (s : string)
| JArr (l : list json)
| JObj (l : list (string * json)).

(** The fields [pkginfo] reads out of an archive that this development
    looks at; the object is passed through untouched. *)
Record Metadata : Type := mkMetadata {
  md_name : option string;
  md_version : option string;
  md_requires_dist : list string
}.

Inductive pyval : Type :=
| VStr (s : string)
| VLink (l : Link)
| VLinks (l : list Link)       (* a list of 2-tuples *)
| VJson (j : json)
| VMeta (m : Metadata).

Definition type_name (v : pyval) : string :=
  match v with
  | VStr _ => "str"
  | VLink _ => "tuple"
  | VLinks _ => "list"
  | VJson JNull => "NoneType"
  | VJson (JBool _) => "bool"
  | VJson (JInt _) => "int"
  | VJson (JFloat _) => "float"
  | VJson (JStr _) => "str"
  | VJson (JArr _) => "list"
  | VJson (JObj _) => "dict"
  | VMeta _ => "Distribution"
  end.

(** An instance: its class, the methods the class defines, and the
    instance dictionary. *)
Record Obj : Type := mkObj {
  cls_name : string;
  cls_methods : list string;
  attrs : gmap string pyval
}.

(** What [obj.name] evaluates to. *)
Inductive attr : Type :=
| Field (v : pyval)
| BoundMethod (name : string).

(** [obj.name]: the instance dictionary first, then the class; neither
    class of the module defines [__getattr__]. *)
Definition getattr (o : Obj) (name : string) : result attr :=
  match attrs o !! name with
  | Some v => inr (Field v)
  | None =>
      if bool_decide (name ∈ cls_methods o) then inr (BoundMethod name)
      else inl (AttributeError (cls_name o) name)
  end.

(** [obj.name] where the program goes on to use the value as a string;
    the attributes it reads this way only ever hold strings. *)
Definition getattr_str (o : Obj) (name : string) : result string :=
  match getattr o name with
  | inr (Field (VStr s)) => inr s
  | inr (Field v) => inl (TypeError (type_name v))
  | inr (BoundMethod _) => inl (TypeError "method")
  | inl e => inl e
  end.

(** [obj.name = v] *)
Definition setattr (name : string) (v : pyval) : M (Obj * World) unit :=
  λ '(o, w), (inr tt, (mkObj (cls_name o) (cls_methods o) (<[name := v]> (attrs o)), w)).

(** A computation on the world, run inside a method. *)
Definition lift {A} (m : M World A) : M (Obj * World) A :=
  λ '(o, w), match m w with (r, w') => (r, (o, w')) end.

(** A method that only reads [self], run inside a method that writes it. *)
Definition with_self {A} (m : Obj → M World A) : M (Obj * World) A :=
  λ '(o, w), match m o w with (r, w') => (r, (o, w')) end.

(** An instance before [__init__] has run. *)
Definition fresh (cls : string) (methods : list string) : Obj :=
  mkObj cls methods ∅.

(** [Cls(args)]: [__init__] runs on a fresh instance; the instance is the
    value only when [__init__] returns. *)
Definition construct (cls : string) (methods : list string)
    (init : M (Obj * World) unit) : M World Obj :=
  λ w, match init (fresh cls methods, w) with
       | (inr _, (o, w')) => (inr o, w')
       | (inl e, (_, w')) => (inl e, w')
       end.

(** ** Sorting links as [list.sort(key=lambda x: x[0])] does *)

(** [a < b] on keys: only two strings compare; [None] on either side
    raises. Strings compare lexicographically by code unit. The message
    stops before the two type names, which depend on the pair the
    built-in sort happens to compare first. *)
Definition py_lt (a b : option string) : result bool :=
  match a, b with
  | Some x, Some y => inr (String.ltb x y)
  | _, _ => inl (TypeError "'<' not supported between instances")
  end.

(** [list.sort] is a stable comparison sort that uses only [<] on the
    keys. The outcome of a stable sort does not depend on the algorithm,
    and every element of a list of two or more takes part in a comparison,
    so insertion from the right gives the same list and the same
    [TypeError]s as the built-in. *)
Fixpoint insert_link (x : Link) (l : list Link) : result (list Link) :=
  match l with
  | [] => inr [x]
  | y :: l' =>
      match py_lt y.1 x.1 with
      | inl e => inl e
      | inr true =>
          match insert_link x l' with
          | inl e => inl e
          | inr r => inr (y :: r)
          end
      | inr false => inr (x :: y :: l')
      end
  end.

Fixpoint sort_by_label (l : list Link) : result (list Link) :=
  match l with
  | [] => inr []
  | x :: l' =>
      match sort_by_label l' with
      | inl e => inl e
      | inr s => insert_link x s
      end
  end.

(** [l[-1]] *)
Definition last_item {A} (l : list A) : result A :=
  match last l with
  | Some a => inr a
  | None => inl (IndexError "list index out of range")
  end.

(** ** [get_links] *)

Section GetLinks.

(** [BeautifulSoup(text, 'html.parser').find_all('a')]: the anchors of a
    page in document order. *)
Variable find_all_a : string → list Tag.

(** [link['href']] on an anchor *)
Definition tag_getitem (link : Tag) (key : string) : result string :=
  match tag_attrs link !! key with
  | Some v => inr v
  | None => inl (KeyError key)
  end.

(** [(link.string, link['href'])] *)
Definition link_pair (link : Tag) : result Link :=
  match tag_getitem link "href" with
  | inr href => inr (tag_string link, href)
  | inl e => inl e
  end.

Definition get_links (url : string) : M World (list Link) :=
  (res <- try_except
            (r <- requests_get url ;;
             log DEBUG "Successfully made the request to %s" [AStr url] ;;;
             ret (Some r))
            (λ e,
             log ERROR "Failed to make the request: %s" [AExn e] ;;;
             ret None) ;;
   log DEBUG "Parsing the HTML content..." [] ;;;
   res <- local_var "res" res ;;
   let packages_soup := text res in
   log DEBUG "HTML parsing complete." [] ;;;
   log DEBUG "Extracting links..." [] ;;;
   let links := find_all_a packages_soup in
   log DEBUG "Extracted %d links." [AInt (Z.of_nat (length links))] ;;;
   mapM (λ link, of_result (link_pair link)) links)%py.

End GetLinks.

(** ** [class PackageCrawler] *)

Module PackageCrawler.
Section Methods.

Variable find_all_a : string → list Tag.
(** [json.load] on the text of a file; [None] stands for
    [JSONDecodeError]. *)
Variable json_loads : string → option json.
(** [json.dumps(v, indent=2)] *)
Variable json_dumps : json → string.

Definition methods : list string := ["__init__"; "_add_base_url"; "_get_packages"].

Definition default_url : string := "https://pypi.org/simple/".

Definition _add_base_url (self : Obj) (url : string) : result string :=
  match getattr_str self "repo_url" with
  | inr repo_url => inr (Str.rstrip "/simple/" repo_url +:+ url)
  | inl e => inl e
  end.

(** [a.debug(...)] on an attribute value: no value of this model is a
    logger, so there is no [debug] to find. *)
Definition call_debug (a : attr) (fmt : string) (args : list logarg) : M World unit :=
  match a with
  | Field v => raise (AttributeError (type_name v) "debug")
  | BoundMethod _ => raise (AttributeError "method" "debug")
  end.

(** [link.string] and [link['href']] on a 2-tuple, which is what
    [get_links] returns: a tuple has no attribute [string] and takes no
    string subscript. *)
Definition tuple_string (link : Link) : result (option string) :=
  inl (AttributeError "tuple" "string").

Definition tuple_getitem (link : Link) (key : string) : result string :=
  inl (TypeError "tuple indices must be integers or slices, not str").

(** The listing as [json.dump] sees it: tuples become arrays, [None]
    becomes [null]. *)
Definition json_of_listing (packages : list Link) : json :=
  JArr (map (λ p : Link, JArr [from_option JStr JNull p.1; JStr p.2]) packages).

Definition _get_packages (self : Obj) (url : string) : M World pyval :=
  (found <- os_path_exists "packages.json" ;;
   if found : bool then
     log DEBUG "packages.json exists, skipping request" [] ;;;
     f <- read_file "packages.json" ;;
     packages <- of_result (match json_loads f with
                            | Some j => inr j
                            | None => inl JSONDecodeError
                            end) ;;
     ret (VJson packages)
   else
     logger <- of_result (getattr self "logger") ;;
     call_debug logger "packages.json does not exist, making request" [] ;;;
     repo_url <- of_result (getattr_str self "repo_url") ;;
     links <- get_links find_all_a repo_url ;;
     packages <- mapM (λ link,
                       name <- of_result (tuple_string link) ;;
                       href <- of_result (tuple_getitem link "href") ;;
                       abs <- of_result (_add_base_url self href) ;;
                       ret (name, abs))
                      links ;;
     write_file "packages.json" (json_dumps (json_of_listing packages)) ;;;
     ret (VLinks packages))%py.

Definition __init__ (url : string) : M (Obj * World) unit :=
  (setattr "repo_url" (VStr url) ;;;
   packages <- with_self (λ self, _get_packages self url) ;;
   setattr "packages" packages)%py.

(** [PackageCrawler(url)] *)
Definition new (url : string) : M World Obj :=
  construct "PackageCrawler" methods (__init__ url).

End Methods.
End PackageCrawler.

(** ** [class Package] *)

Module Package.
Section Methods.

Variable find_all_a : string → list Tag.
(** [pkginfo.SDist(path)] and [pkginfo.Wheel(path)], as functions of the
    path name and of the bytes found there. *)
Variable SDist : string → string → result Metadata.
Variable Wheel : string → string → result Metadata.

Definition methods : list string := ["__init__"; "extract_metadata"].

Definition default_repo_url : string := "https://pypi.org/simple/".

(** The two readers the suffix dispatch chooses between. *)
Inductive reader : Type := UseSDist | UseWheel.

(** [dist(pkgpath)]: the reader opens the file itself. *)
Definition call_reader (dist : reader) (pkgpath : string) : M World Metadata :=
  (data <- read_file pkgpath ;;
   of_result (match dist with
              | UseSDist => SDist pkgpath data
              | UseWheel => Wheel pkgpath data
              end))%py.

(** [os.path.join(tmpdir, filename)] where [filename] may be [None] *)
Definition join_label (tmpdir : string) (filename : option string) : result string :=
  match filename with
  | Some f => inr (os_path_join tmpdir f)
  | None => inl (TypeError "join() argument must be str, bytes, or os.PathLike object, not 'NoneType'")
  end.

Definition extract_metadata (filename : option string) (url : string) : M World Metadata :=
  with_TemporaryDirectory (λ tmpdir,
    (log DEBUG "Downloading %s from %s to %s" [arg_of filename; AStr url; AStr tmpdir] ;;;
     response <- requests_get url ;;
     log DEBUG "Received response with status code %d" [AInt (status_code response)] ;;;
     pkgpath <- of_result (join_label tmpdir filename) ;;
     write_file pkgpath (content response) ;;;
     log DEBUG "Saved package to %s" [AStr pkgpath] ;;;
     let dist :=
       if Str.endswith pkgpath ".tar.gz" then Some UseSDist
       else if Str.endswith pkgpath ".whl" then Some UseWheel
       else None in
     dist <- local_var "dist" dist ;;
     pkg <- call_reader dist pkgpath ;;
     ret pkg)%py).

(** A failing [sort] leaves the list in an unspecified order; here the
    attribute keeps the unsorted list, which nothing reads afterwards. *)
Definition __init__ (name repo_url : string) : M (Obj * World) unit :=
  (setattr "name" (VStr name) ;;;
   setattr "repo_url" (VStr repo_url) ;;;
   package_versions <- lift (get_links find_all_a (repo_url +:+ name)) ;;
   setattr "package_versions" (VLinks package_versions) ;;;
   package_versions <- of_result (sort_by_label package_versions) ;;
   setattr "package_versions" (VLinks package_versions) ;;;
   latest_version <- of_result (last_item package_versions) ;;
   setattr "latest_version" (VLink latest_version) ;;;
   metadata <- lift (extract_metadata latest_version.1 latest_version.2) ;;
   setattr "metadata" (VMeta metadata))%py.

(** [Package(name, repo_url)] *)
Definition new (name repo_url : string) : M World Obj :=
  construct "Package" methods (__init__ name repo_url).

(** The module's last statement: [package = Package("pandas")]. *)
Definition main : M World Obj := new "pandas" default_repo_url.

End Methods.
End Package.

(** ** Vocabulary of the statements *)

Definition has_label (a : Link) : Prop := is_Some a.1.

(** [a]'s label is at most [b]'s in the lexicographic order of strings,
    both labels being present. *)
Definition label_le (a b : Link) : Prop :=
  match a.1, b.1 with
  | Some f, Some g => String.leb f g = true
  | _, _ => False
  end.

(** Where ['packages.json'] lives. *)
Definition snapshot_path (w : World) : list string := cwd w ++ ["packages.json"].

(** Nothing is left at or below the directory [d]. *)
Definition removed (d : list string) (w : World) : Prop :=
  ∀ p, d `prefix_of` p → fs w !! p = None.

(** The world after a computation that sent [urls] and logged [recs]. *)
Definition after (w : World) (urls : list string) (recs : list LogRecord) : World :=
  mkWorld (net w) (sent w ++ urls) (fs w) (cwd w) (console w ++ recs)
          (rand_names w) (rand_pos w).

(** The records [get_links] logs when the request succeeds and the page
    has [n] anchors. *)
Definition fetch_log (url : string) (n : nat) : list LogRecord :=
  [(DEBUG, "Successfully made the request to %s", [AStr url]);
   (DEBUG, "Parsing the HTML content...", []);
   (DEBUG, "HTML parsing complete.", []);
   (DEBUG, "Extracting links...", []);
   (DEBUG, "Extracted %d links.", [AInt (Z.of_nat n)])].

(** A crawler instance as [_add_base_url] finds it: [repo_url] is set. *)
Definition crawler_at (url : string) : Obj :=
  mkObj "PackageCrawler" PackageCrawler.methods {[ "repo_url" := VStr url ]}.

(** The attribute [name] of the instance a constructor call returned,
    if it returned one. *)
Definition attr_of (r : result Obj * World) (name : string) : option pyval :=
  match r.1 with
  | inr o => attrs o !! name
  | inl _ => None
  end.

(** ** A small world to run the program in *)

Module Sample.

Definition index_page : string :=
  "<a href='/simple/pkg-a/'>pkg-a</a><a href='/simple/pkg-b/'>pkg-b</a>".
Definition versions_page : string :=
  "<a href='https://files.example/pkg-1.9.tar.gz'>pkg-1.9.tar.gz</a><a href='https://files.example/pkg-1.10.tar.gz'>pkg-1.10.tar.gz</a>".
Definition zip_page : string :=
  "<a href='https://files.example/old-1.0.zip'>old-1.0.zip</a>".
Definition empty_page : string := "<html><body></body></html>".
Definition broken_page : string :=
  "<a href='https://files.example/x-1.0.whl'>x-1.0.whl</a><a name='top'>top</a>".

Definition anchor (label href : string) : Tag :=
  mkTag (Some label) {[ "href" := href ]}.

Definition find_all_a (page : string) : list Tag :=
  if String.eqb page index_page then
    [anchor "pkg-a" "/simple/pkg-a/"; anchor "pkg-b" "/simple/pkg-b/"]
  else if String.eqb page versions_page then
    [anchor "pkg-1.9.tar.gz" "https://files.example/pkg-1.9.tar.gz";
     anchor "pkg-1.10.tar.gz" "https://files.example/pkg-1.10.tar.gz"]
  else if String.eqb page zip_page then
    [anchor "old-1.0.zip" "https://files.example/old-1.0.zip"]
  else if String.eqb page broken_page then
    [anchor "x-1.0.whl" "https://files.example/x-1.0.whl";
     mkTag (Some "top") {[ "name" := "top" ]}]
  else [].

Definition page (body : string) : result Response := inr (mkResponse 200 body body).

Definition net (url : string) : result Response :=
  if String.eqb url "https://pypi.org/simple/" then page index_page
  else if String.eqb url "https://pypi.org/simple/pkg" then page versions_page
  else if String.eqb url "https://pypi.org/simple/old" then page zip_page
  else if String.eqb url "https://pypi.org/simple/none" then page empty_page
  else if String.eqb url "https://pypi.org/simple/bad" then page broken_page
  else if String.eqb url "https://files.example/pkg-1.9.tar.gz" then page "sdist-bytes"
  else if String.eqb url "https://files.example/old-1.0.zip" then page "zip-bytes"
  else inl (RequestException "Name or service not known").

Definition SDist (path data : string) : result Metadata :=
  if String.eqb data "sdist-bytes"
  then inr (mkMetadata (Some "pkg") (Some "1.9") ["numpy"])
  else inl (ValueError "No PKG-INFO in archive").

Definition Wheel (path data : string) : result Metadata :=
  inl (ValueError "not a valid wheel archive").

(** A JSON string literal: the text between two quotation marks
    (character 34). *)
Definition quoted (s : string) : string :=
  String (ascii_of_nat 34) (s +:+ String (ascii_of_nat 34) EmptyString).

Definition snapshot_text : string :=
  "[[" +:+ quoted "pkg-a" +:+ ", " +:+ quoted "https://pypi.org/simple/pkg-a/" +:+ "]]".
Definition snapshot_value : json :=
  JArr [JArr [JStr "pkg-a"; JStr "https://pypi.org/simple/pkg-a/"]].

Definition json_loads (s : string) : option json :=
  if String.eqb s snapshot_text then Some snapshot_value else None.

Definition json_dumps (j : json) : string := snapshot_text.

Definition names (n : nat) : string := "k3x9_q0a".

(** No snapshot, a working network. *)
Definition cold : World :=
  mkWorld net [] {[ ["tmp"] := Dir; ["home"] := Dir ]} ["home"] [] names 0.

(** A valid snapshot in the working directory. *)
Definition warm : World :=
  mkWorld net []
    {[ ["tmp"] := Dir; ["home"] := Dir;
       ["home"; "packages.json"] := File snapshot_text ]}
    ["home"] [] names 0.

(** A snapshot that is not JSON. *)
Definition damaged : World :=
  mkWorld net []
    {[ ["tmp"] := Dir; ["home"] := Dir;
       ["home"; "packages.json"] := File ("[[" +:+ quoted "pkg-a" +:+ ", ") ]}
    ["home"] [] names 0.

End Sample.

(** ** Vocabulary of the further properties *)

(** A file name proper: no separator in it, and none of the three names a
    path treats specially. *)
Definition plain_name (f : string) : bool :=
  negb (Str.mem "/" f) && negb (String.eqb f "") &&
  negb (String.eqb f ".") && negb (String.eqb f "..").

Global Instance node_eq_dec : EqDecision node.
Proof. solve_decision. Defined.

(** The file system is a tree: whatever exists lies in a directory that
    exists. *)
Definition tree_shaped (f : gmap (list string) node) : Prop :=
  map_Forall (λ p _, lookup_node f (removelast p) = Some Dir) f.

(** [a]'s label is strictly below [b]'s, both being present. *)
Definition label_ltb (a b : Link) : bool :=
  match a.1, b.1 with
  | Some f, Some g => String.ltb f g
  | _, _ => false
  end.

(** One pass from the right end of the list that keeps the best link so
    far and replaces it only by a strictly greater one. *)
Fixpoint rightmost_max (l : list Link) : option Link :=
  match l with
  | [] => None
  | x :: l' =>
      match rightmost_max l' with
      | None => Some x
      | Some m => if label_ltb m x then Some x else Some m
      end
  end.

(** The log record of a download that begins. *)
Definition download_log (filename : option string) (url tmpdir : string) : LogRecord :=
  (DEBUG, "Downloading %s from %s to %s", [arg_of filename; AStr url; AStr tmpdir]).

(** ** More of the sample world *)

Module Scenes.

(** A page whose first anchor has no single text child, and a page that
    lists one file name on two mirrors. *)
Definition mixed_page : string :=
  "<a href='https://files.example/m-1.0.tar.gz'><b>m-1.0</b>.tar.gz</a><a href='https://files.example/m-2.0.tar.gz'>m-2.0.tar.gz</a>".
Definition twins_page : string :=
  "<a href='https://mirror-a.example/t-1.0.whl'>t-1.0.whl</a><a href='https://mirror-b.example/t-1.0.whl'>t-1.0.whl</a>".

Definition find_all_a (page : string) : list Tag :=
  if String.eqb page mixed_page then
    [mkTag None {[ "href" := "https://files.example/m-1.0.tar.gz" ]};
     Sample.anchor "m-2.0.tar.gz" "https://files.example/m-2.0.tar.gz"]
  else if String.eqb page twins_page then
    [Sample.anchor "t-1.0.whl" "https://mirror-a.example/t-1.0.whl";
     Sample.anchor "t-1.0.whl" "https://mirror-b.example/t-1.0.whl"]
  else Sample.find_all_a page.

Definition net (url : string) : result Response :=
  if String.eqb url "https://pypi.org/simple/mixed" then Sample.page mixed_page
  else if String.eqb url "https://pypi.org/simple/twins" then Sample.page twins_page
  else Sample.net url.

Definition web : World :=
  mkWorld net [] {[ ["tmp"] := Dir; ["home"] := Dir ]} ["home"] [] Sample.names 0.

(** A world in which every request is interrupted from the keyboard. *)
Definition interrupted : World :=
  mkWorld (λ _, inl KeyboardInterrupt) [] {[ ["tmp"] := Dir; ["home"] := Dir ]}
          ["home"] [] Sample.names 0.

(** The instance [Package("pkg")] builds in the sample world. *)
Definition built : Obj :=
  match (Package.new Sample.find_all_a Sample.SDist Sample.Wheel
           "pkg" Package.default_repo_url Sample.cold).1 with
  | inr o => o
  | inl _ => fresh "Package" Package.methods
  end.

End Scenes.

(** * Properties *)

(** ** Strings *)

Lemma append_nil (b : string) : "" +:+ b = b.
Proof. reflexivity. Qed.

Lemma append_cons (x : ascii) (a b : string) : String x a +:+ b = String x (a +:+ b).
Proof. reflexivity. Qed.

Lemma append_assoc (a b c : string) : (a +:+ b) +:+ c = a +:+ (b +:+ c).
Proof.
  induction a as [|x a IH]; [done|]. rewrite !append_cons. by f_equal.
Qed.

Lemma mem_append (c : ascii) (p f : string) : Str.mem c (p +:+ String c f) = true.
Proof.
  induction p as [|x p IH]; [rewrite append_nil|rewrite append_cons]; simpl.
  - by rewrite Ascii.eqb_refl.
  - rewrite IH. apply orb_true_r.
Qed.

Lemma endswith_inv (s sfx : string) :
  Str.endswith s sfx = true → ∃ p, s = p +:+ sfx.
Proof.
  induction s as [|c s IH]; cbn [Str.endswith].
  - rewrite orb_false_r. intros <-%String.eqb_eq. by exists "".
  - intros [<-%String.eqb_eq|H]%orb_true_iff; [by exists ""|].
    destruct (IH H) as [p ->]. by exists (String c p).
Qed.

(** A suffix without the separator cannot reach across a separator. *)
Lemma endswith_after_sep (c : ascii) (p f sfx : string) :
  Str.mem c sfx = false →
  Str.endswith (p +:+ String c f) sfx = Str.endswith f sfx.
Proof.
  intros Hsfx.
  induction p as [|x p IH]; [rewrite append_nil|rewrite append_cons];
    cbn [Str.endswith].
  - destruct (String.eqb_spec (String c f) sfx) as [<-|_]; [|done].
    pose proof (mem_append c "" f) as Hm. rewrite append_nil in Hm. congruence.
  - rewrite IH.
    destruct (String.eqb_spec (String x (p +:+ String c f)) sfx) as [<-|_]; [|done].
    pose proof (mem_append c (String x p) f) as Hm.
    rewrite append_cons in Hm. congruence.
Qed.

(** Whether the joined path ends in a suffix is decided by the file name. *)
Lemma endswith_join (tmpdir f sfx : string) :
  Str.mem "/" sfx = false →
  Str.endswith (os_path_join tmpdir f) sfx = Str.endswith f sfx.
Proof.
  intros Hsfx. unfold os_path_join.
  destruct (Str.starts_with_char "/" f); [done|].
  destruct (String.eqb tmpdir ""); [done|].
  destruct (Str.endswith tmpdir "/") eqn:Hend.
  - apply endswith_inv in Hend as [p ->]. rewrite append_assoc.
    by apply endswith_after_sep.
  - by apply endswith_after_sep.
Qed.

(** [rstrip] returns a prefix, strips only listed characters, and stops
    at the last character that is not listed. *)
Lemma append_snoc_nil (r : string) (c : ascii) : r +:+ String c "" ≠ "".
Proof. by destruct r. Qed.

Lemma rstrip_spec (chars s : string) :
  ∃ t, s = Str.rstrip chars s +:+ t ∧
       (∀ c, Str.mem c t = true → Str.mem c chars = true) ∧
       (∀ r c, Str.rstrip chars s = r +:+ String c "" → Str.mem c chars = false).
Proof.
  induction s as [|x s (t & Hs & Ht & Hlast)]; cbn [Str.rstrip].
  - exists "". repeat split; [done|]. intros r c H. by destruct (append_snoc_nil r c).
  - destruct (Str.rstrip chars s) as [|y r'] eqn:Hr.
    + rewrite append_nil in Hs. subst t.
      destruct (Str.mem x chars) eqn:Hx.
      * exists (String x s). repeat split.
        -- intros c. cbn [Str.mem].
           intros [->%Ascii.eqb_eq|?]%orb_true_iff; auto.
        -- intros r c H. by destruct (append_snoc_nil r c).
      * exists s. repeat split; [done|].
        intros [|z r] c; [rewrite append_nil|rewrite append_cons]; intros [=].
        -- by subst.
        -- by destruct (append_snoc_nil r c).
    + exists t. repeat split; [|done|].
      * rewrite append_cons. by f_equal.
      * intros [|z r] c; [rewrite append_nil|rewrite append_cons]; intros [=].
        by eapply Hlast.
Qed.

(** ** Order on labels *)

Lemma ltb_true_leb (x y : string) : String.ltb x y = true → String.leb x y = true.
Proof. unfold String.ltb, String.leb. by destruct (String.compare x y). Qed.

Lemma ltb_false_leb (x y : string) : String.ltb y x = false → String.leb x y = true.
Proof.
  unfold String.ltb, String.leb. rewrite (String.compare_antisym x y).
  by destruct (String.compare y x).
Qed.

Lemma leb_trans (x y z : string) :
  String.leb x y = true → String.leb y z = true → String.leb x z = true.
Proof.
  intros Hxy Hyz. apply Is_true_true.
  change (String.le x z). transitivity y; unfold String.le; by apply Is_true_true.
Qed.

Lemma label_le_refl (a : Link) : has_label a → label_le a a.
Proof.
  intros [f Hf]. unfold label_le. rewrite Hf.
  apply Is_true_true. change (String.le f f). reflexivity.
Qed.

Lemma label_le_trans (a b c : Link) : label_le a b → label_le b c → label_le a c.
Proof.
  unfold label_le. destruct a.1, b.1, c.1; try done. apply leb_trans.
Qed.

(** ** The sort *)

Lemma insert_link_perm (x : Link) (l r : list Link) :
  insert_link x l = inr r → r ≡ₚ x :: l.
Proof.
  revert r. induction l as [|y l IH]; intros r; simpl.
  - by intros [= <-].
  - destruct (py_lt y.1 x.1) as [e|[|]]; [done| |].
    + destruct (insert_link x l) as [e|r']; [done|].
      intros [= <-]. rewrite (IH r' eq_refl). apply Permutation_swap.
    + by intros [= <-].
Qed.

Lemma sort_by_label_perm (l s : list Link) :
  sort_by_label l = inr s → s ≡ₚ l.
Proof.
  revert s. induction l as [|x l IH]; intros s; simpl.
  - by intros [= <-].
  - destruct (sort_by_label l) as [e|s']; [done|].
    intros Hins%insert_link_perm. by rewrite Hins, (IH s' eq_refl).
Qed.

Lemma insert_link_sorted (x : Link) (l : list Link) :
  has_label x → Forall has_label l → StronglySorted label_le l →
  ∃ r, insert_link x l = inr r ∧ StronglySorted label_le r.
Proof.
  intros [fx Hx] Hl Hs. induction Hs as [|y l Hs IH Hy]; simpl.
  - eexists; split; [done|]. repeat constructor.
  - apply Forall_cons in Hl as [[fy Hfy] Hl].
    rewrite Hfy, Hx. simpl.
    destruct (String.ltb fy fx) eqn:Hlt.
    + destruct (IH Hl) as (r & Hr & Hsr). rewrite Hr.
      eexists; split; [done|]. constructor; [done|].
      apply insert_link_perm in Hr. rewrite Hr. constructor; [|done].
      unfold label_le. rewrite Hfy, Hx. by apply ltb_true_leb.
    + eexists; split; [done|].
      assert (label_le x y) as Hxy.
      { unfold label_le. rewrite Hfy, Hx. by apply ltb_false_leb. }
      constructor; [by constructor|]. constructor; [done|].
      eapply Forall_impl; [exact Hy|]. intros z. by apply label_le_trans.
Qed.

Lemma sort_by_label_sorted (l : list Link) :
  Forall has_label l →
  ∃ s, sort_by_label l = inr s ∧ s ≡ₚ l ∧ StronglySorted label_le s.
Proof.
  induction 1 as [|x l Hx Hl (s & Hs & Hp & Hss)]; simpl.
  - eexists; repeat split; constructor.
  - rewrite Hs.
    destruct (insert_link_sorted x s) as (r & Hr & Hsr); [done| |done|].
    { by rewrite Hp. }
    exists r. repeat split; [done| |done].
    apply insert_link_perm in Hr. by rewrite Hr, Hp.
Qed.

Lemma sorted_last_max (s : list Link) (x : Link) :
  Forall has_label s → StronglySorted label_le s → last s = Some x →
  ∀ y, y ∈ s → label_le y x.
Proof.
  intros Hl Hs. revert x. induction Hs as [|z s Hs IH Hz]; intros x; [done|].
  apply Forall_cons in Hl as [Hlz Hl].
  destruct s as [|z' s'].
  - intros [= <-] y ->%list_elem_of_singleton. by apply label_le_refl.
  - rewrite last_cons_cons. intros Hlast y [->|Hy]%elem_of_cons.
    + eapply Forall_forall; [exact Hz|]. by eapply last_Some_elem_of.
    + by apply IH.
Qed.

(** The sort fails exactly when some comparison meets [None]: the list
    has two or more links and one of them has no label. *)
Lemma sort_by_label_error (l : list Link) :
  (∃ e, sort_by_label l = inl e) ↔
  (2 ≤ length l)%nat ∧ ∃ y, y ∈ l ∧ y.1 = None.
Proof.
  split.
  - intros [e He]. split.
    + destruct l as [|x [|y l]]; simpl in *; [done..|lia].
    + destruct (decide (Forall has_label l)) as [Hall|Hnot].
      { destruct (sort_by_label_sorted l Hall) as (s & Hs & _). congruence. }
      apply not_Forall_Exists in Hnot; [|apply _].
      apply Exists_exists in Hnot as (y & Hy & Hn).
      exists y. split; [done|].
      destruct y.1 eqn:Hy1; [|done]. destruct Hn. unfold has_label. by rewrite Hy1.
  - induction l as [|x l IH]; intros [Hlen (y & Hy & Hnone)]; simpl in *; [lia|].
    destruct (sort_by_label l) as [e|s] eqn:Hs; [by eexists|].
    assert (s ≡ₚ l) as Hp by by apply sort_by_label_perm.
    destruct s as [|z s].
    { apply Permutation_nil_l in Hp. subst. simpl in *. lia. }
    simpl. destruct z.1 as [fz|] eqn:Hz; [|by eexists].
    destruct x.1 as [fx|] eqn:Hx; [|by eexists].
    exfalso. apply elem_of_cons in Hy as [->|Hy]; [congruence|].
    destruct (decide (2 ≤ length l)%nat) as [Hl2|Hl1].
    + destruct IH as [e He]; [eauto|congruence].
    + assert (length (z :: s) = length l) as Hlen' by by rewrite Hp.
      destruct l as [|y' [|? ?]]; simpl in *; try lia.
      destruct s; [|done]. apply Permutation_singleton_l in Hp as [= ->].
      apply list_elem_of_singleton in Hy as ->. congruence.
Qed.

(** ** Files and temporary directories *)

Lemma lookup_node_snoc (f : gmap (list string) node) (l : list string) (x : string) :
  lookup_node f (l ++ [x]) = f !! (l ++ [x]).
Proof. by destruct l. Qed.

Lemma resolve_snapshot (c : list string) :
  resolve c "packages.json" = c ++ ["packages.json"].
Proof. reflexivity. Qed.

Lemma resolve_absolute (c : list string) (name : string) :
  Str.starts_with_char "/" name = true → resolve c name = resolve [] name.
Proof. unfold resolve. by intros ->. Qed.

(** Writing a file looks only at the file system and the working
    directory. *)
Lemma write_file_result (name data : string) (w w' : World) :
  fs w' = fs w → cwd w' = cwd w →
  (write_file name data w').1 = (write_file name data w).1.
Proof.
  intros Hfs Hcwd. unfold write_file. rewrite Hfs, Hcwd.
  destruct (String.eqb name ""); [done|].
  destruct (Str.endswith name "/"); [done|].
  destruct (lookup_node (fs w) (resolve (cwd w) name)) as [[|?]|];
    [done|by destruct (lookup_node _ (removelast _)) as [[|?]|]..].
Qed.

(** What [mkdtemp] leaves behind: a new directory with an absolute name,
    and nothing else changed but the position in the name generator. *)
Lemma mkdtemp_loop_spec (n : nat) (w w1 : World) (d : string) :
  mkdtemp_loop n w = (inr d, w1) →
  Str.starts_with_char "/" d = true ∧
  fs w !! resolve (cwd w) d = None ∧
  fs w1 = <[resolve (cwd w) d := Dir]> (fs w) ∧
  net w1 = net w ∧ sent w1 = sent w ∧ cwd w1 = cwd w ∧ console w1 = console w.
Proof.
  revert w. induction n as [|n IH]; intros w; [done|].
  cbn [mkdtemp_loop]. unfold bind, next_name, os_mkdir. cbn [cwd fs].
  set (file := "/tmp/tmp" +:+ rand_names w (rand_pos w)).
  destruct (lookup_node (fs w) (resolve (cwd w) file)) as [nd|] eqn:Hl.
  - intros H. apply IH in H. cbn in H. exact H.
  - destruct (lookup_node (fs w) (removelast (resolve (cwd w) file)))
      as [[|?]|]; [|done..].
    intros [= <- <-]. cbn. repeat split; try done.
    destruct (resolve (cwd w) file); [done|exact Hl].
Qed.

Lemma rmtree_removed (name : string) (w : World) :
  removed (resolve (cwd w) name) (rmtree name w).
Proof.
  intros p Hp. unfold rmtree. cbn.
  apply map_lookup_filter_None. right. intros nd _ Hn. by apply Hn.
Qed.

(** ** [get_links] *)

(** The comprehension over the anchors: either every anchor has an [href]
    and the pairs come out in document order, or one has none and the
    lookup raises. *)
Lemma links_of_anchors (links : list Tag) (w : World) :
  (∃ r, mapM (λ link, of_result (link_pair link)) links w = (inr r, w) ∧
        Forall2 (λ a (p : Link), p.1 = tag_string a ∧ tag_attrs a !! "href" = Some p.2)
                links r) ∨
  (mapM (λ link, of_result (link_pair link)) links w = (inl (KeyError "href"), w) ∧
   ∃ a, a ∈ links ∧ tag_attrs a !! "href" = None).
Proof.
  induction links as [|a links IH]; cbn [mapM].
  - left. exists []. by split.
  - unfold bind, of_result, ret in *.
    destruct (link_pair a) as [e|p] eqn:Hp; unfold link_pair, tag_getitem in Hp;
      destruct (tag_attrs a !! "href") as [h|] eqn:Ha; simplify_eq.
    + right. split; [done|]. exists a. split; [by left|done].
    + destruct IH as [(r & -> & Hr)|(-> & b & Hb & Hnone)].
      * left. exists ((tag_string a, h) :: r). split; [done|]. by constructor.
      * right. split; [done|]. exists b. split; [by right|done].
Qed.

Lemma get_links_fetched (find_all_a : string → list Tag)
    (url : string) (w : World) (resp : Response) :
  net w url = inr resp →
  get_links find_all_a url w =
    mapM (λ link, of_result (link_pair link)) (find_all_a (text resp))
         (after w [url] (fetch_log url (length (find_all_a (text resp))))).
Proof.
  intros Hnet. unfold get_links, bind, try_except, requests_get, log, ret,
    local_var, after, fetch_log. cbn. rewrite Hnet. cbn.
  by rewrite <-!app_assoc.
Qed.

(** A list comes back only from a request that succeeded. *)
Lemma get_links_returns_fetched (find_all_a : string → list Tag)
    (url : string) (w : World) (links : list Link) :
  (get_links find_all_a url w).1 = inr links → ∃ resp, net w url = inr resp.
Proof.
  destruct (net w url) as [e|resp] eqn:Hnet; [|by eexists].
  unfold get_links, bind, try_except, requests_get, log, ret, local_var.
  cbn. rewrite Hnet. by destruct (is_Exception e).
Qed.

(** C4. When the GET request raises an exception, [get_links] catches it
    and logs it, goes on to read the response variable that was never
    assigned, and fails with [UnboundLocalError] for [res]; the network
    error itself is not what the caller sees. *)
Theorem get_links_swallows_network_error (find_all_a : string → list Tag)
    (url : string) (w : World) (e : exn) :
  net w url = inl e →
  is_Exception e = true →
  get_links find_all_a url w =
    (inl (UnboundLocalError "res"),
     after w [url]
       [(ERROR, "Failed to make the request: %s", [AExn e]);
        (DEBUG, "Parsing the HTML content...", [])]).
Proof.
  intros Hnet Hexn.
  unfold get_links, bind, try_except, requests_get, log, ret, local_var, raise, after.
  cbn. rewrite Hnet, Hexn. cbn. by rewrite <-app_assoc.
Qed.

(** C10. On a page that was fetched and parsed, an anchor without an
    [href] attribute makes [get_links] raise [KeyError] for [href]; and a
    list that is returned pairs every anchor's [string] (possibly [None])
    with the value of its [href] attribute, which is therefore present. *)
Theorem get_links_anchor_without_href (find_all_a : string → list Tag)
    (url : string) (w : World) (resp : Response) :
  net w url = inr resp →
  ((∃ a, a ∈ find_all_a (text resp) ∧ tag_attrs a !! "href" = None) →
   (get_links find_all_a url w).1 = inl (KeyError "href")) ∧
  (∀ links, (get_links find_all_a url w).1 = inr links →
     Forall2 (λ a (p : Link), p.1 = tag_string a ∧ tag_attrs a !! "href" = Some p.2)
             (find_all_a (text resp)) links).
Proof.
  intros Hnet. rewrite (get_links_fetched _ _ _ _ Hnet).
  destruct (links_of_anchors (find_all_a (text resp))
              (after w [url] (fetch_log url (length (find_all_a (text resp))))))
    as [(r & -> & Hr)|(-> & b & Hb & Hnone)]; cbn.
  - split; [|by intros links [= <-]].
    intros (a & Ha & Hnone). exfalso.
    apply list_elem_of_lookup in Ha as [i Hi].
    destruct (Forall2_lookup_l _ _ _ _ _ Hr Hi) as (p & _ & _ & Hp). congruence.
  - by split.
Qed.

(** ** [PackageCrawler] *)

Section CrawlerFacts.

Variable find_all_a : string → list Tag.
Variable json_loads : string → option json.
Variable json_dumps : json → string.

Local Abbreviation new := (PackageCrawler.new find_all_a json_loads json_dumps).

(** Construction when the snapshot is there: read it, keep it. *)
Lemma new_from_snapshot (url : string) (w : World) (data : string) :
  fs w !! snapshot_path w = Some (File data) →
  new url w =
    match json_loads data with
    | Some j =>
        (inr (mkObj "PackageCrawler" PackageCrawler.methods
                (<["packages" := VJson j]> {[ "repo_url" := VStr url ]})),
         after w [] [(DEBUG, "packages.json exists, skipping request", [])])
    | None =>
        (inl JSONDecodeError,
         after w [] [(DEBUG, "packages.json exists, skipping request", [])])
    end.
Proof.
  intros Hsnap. unfold snapshot_path in Hsnap.
  unfold PackageCrawler.new, construct, PackageCrawler.__init__, bind, setattr,
    with_self, PackageCrawler._get_packages, bind, os_path_exists, read_file,
    log, of_result, ret, fresh, after.
  cbn. rewrite lookup_node_snoc, Hsnap. cbn.
  rewrite lookup_node_snoc, Hsnap, app_nil_r. by destruct (json_loads data).
Qed.

(** C2. With no snapshot file, construction never reaches the index: the
    first statement of the cold branch reads [self.logger], which no
    [PackageCrawler] has, and [AttributeError] ends the construction.
    No request is sent, no listing is built and no file is written. *)
Theorem cold_start_attribute_error (url : string) (w : World) :
  fs w !! snapshot_path w = None →
  new url w = (inl (AttributeError "PackageCrawler" "logger"), w).
Proof.
  intros Hsnap. unfold snapshot_path in Hsnap.
  unfold PackageCrawler.new, construct, PackageCrawler.__init__, bind, setattr,
    with_self, PackageCrawler._get_packages, bind, os_path_exists,
    of_result, fresh.
  cbn. rewrite lookup_node_snoc, Hsnap. cbn.
  by destruct w.
Qed.

(** C5. With a valid snapshot file in place, two constructions in a row
    both succeed, both hold the value the file deserializes to, and
    neither sends a request: the log of requests is the same after each
    as before, and so is the file system. *)
Theorem snapshot_construction_idempotent (url1 url2 : string) (w : World)
    (data : string) (j : json) :
  fs w !! snapshot_path w = Some (File data) →
  json_loads data = Some j →
  ∃ o1 w1 o2 w2,
    new url1 w = (inr o1, w1) ∧
    new url2 w1 = (inr o2, w2) ∧
    attrs o1 !! "packages" = Some (VJson j) ∧
    attrs o2 !! "packages" = Some (VJson j) ∧
    sent w1 = sent w ∧ sent w2 = sent w ∧
    fs w1 = fs w ∧ fs w2 = fs w.
Proof.
  intros Hsnap Hj.
  pose proof (new_from_snapshot url1 w data Hsnap) as H1. rewrite Hj in H1.
  set (w1 := after w [] [(DEBUG, "packages.json exists, skipping request", [])]) in *.
  assert (fs w1 !! snapshot_path w1 = Some (File data)) as Hsnap1 by done.
  pose proof (new_from_snapshot url2 w1 data Hsnap1) as H2. rewrite Hj in H2.
  eexists _, _, _, _. split; [exact H1|]. split; [exact H2|].
  cbn. rewrite !lookup_insert_eq, !app_nil_r. done.
Qed.

(** C9. With a snapshot file whose content is not JSON, construction
    fails with the parser's [JSONDecodeError]; nothing catches it and no
    request is sent in its place. *)
Theorem damaged_snapshot_parse_error (url : string) (w : World) (data : string) :
  fs w !! snapshot_path w = Some (File data) →
  json_loads data = None →
  ∃ w', new url w = (inl JSONDecodeError, w') ∧
        sent w' = sent w ∧ fs w' = fs w.
Proof.
  intros Hsnap Hj.
  pose proof (new_from_snapshot url w data Hsnap) as H. rewrite Hj in H.
  eexists. split; [exact H|]. cbn. by rewrite app_nil_r.
Qed.

End CrawlerFacts.

(** ** [Package] *)

Section PackageFacts.

Variable find_all_a : string → list Tag.
Variable SDist : string → string → result Metadata.
Variable Wheel : string → string → result Metadata.

Local Abbreviation init := (Package.__init__ find_all_a SDist Wheel).
Local Abbreviation new := (Package.new find_all_a SDist Wheel).
Local Abbreviation extract_metadata := (Package.extract_metadata SDist Wheel).

(** The instance is what [__init__] leaves when it returns. *)
Lemma new_init (name repo_url : string) (w w' : World) (o : Obj) :
  new name repo_url w = (inr o, w') →
  (init name repo_url (fresh "Package" Package.methods, w)).2.1 = o.
Proof.
  unfold Package.new, construct.
  destruct (init _ _ _) as [[e|[]] [o' w'']]; by intros [= <- <-].
Qed.

(** C1. When the package page yields a non-empty list of version links,
    all with a file name, [__init__] sets [latest_version] to a link of
    that list whose file name is greatest in the lexicographic order of
    strings; whatever the download does afterwards, the attribute stays,
    and a constructed [Package] has it. For the file names
    [pkg-1.9.tar.gz], [pkg-1.10.tar.gz] the choice is [pkg-1.9.tar.gz]. *)
Theorem latest_version_is_lexicographic_max (name repo_url : string)
    (w : World) (links : list Link) :
  (get_links find_all_a (repo_url +:+ name) w).1 = inr links →
  links ≠ [] →
  Forall has_label links →
  ∃ latest,
    attrs (init name repo_url (fresh "Package" Package.methods, w)).2.1
      !! "latest_version" = Some (VLink latest) ∧
    latest ∈ links ∧
    (∀ l, l ∈ links → label_le l latest) ∧
    (∀ o w', new name repo_url w = (inr o, w') →
             attrs o !! "latest_version" = Some (VLink latest)) ∧
    (links.*1 = [Some "pkg-1.9.tar.gz"; Some "pkg-1.10.tar.gz"] →
     latest.1 = Some "pkg-1.9.tar.gz").
Proof.
  intros Hg Hne Hlab.
  destruct (sort_by_label_sorted links Hlab) as (s & Hs & Hp & Hss).
  destruct (last s) as [latest|] eqn:Hlast.
  2:{ apply last_None in Hlast. subst s. by apply Permutation_nil_l in Hp. }
  assert (latest ∈ links) as Hin.
  { rewrite <-Hp. by eapply last_Some_elem_of. }
  assert (∀ l, l ∈ links → label_le l latest) as Hmax.
  { intros l Hl. apply (sorted_last_max s); [by rewrite Hp|done..|by rewrite Hp]. }
  assert (attrs (init name repo_url (fresh "Package" Package.methods, w)).2.1
            !! "latest_version" = Some (VLink latest)) as Hattr.
  { destruct (get_links find_all_a (repo_url +:+ name) w) as [r w1] eqn:Hgl.
    cbn in Hg. subst r.
    unfold Package.__init__, bind, setattr, lift, of_result, fresh, last_item.
    cbn. rewrite Hgl. cbn. rewrite Hs. cbn. rewrite Hlast. cbn.
    destruct (Package.extract_metadata _ _ _ _ _) as [[e|m] w2]; cbn.
    - by rewrite lookup_insert_eq.
    - rewrite lookup_insert_ne; [|done]. by rewrite lookup_insert_eq. }
  exists latest. repeat split; [done..| |].
  - intros o w' Hnew. apply new_init in Hnew. by rewrite <-Hnew.
  - intros Hnames.
    destruct links as [|[l1 u1] [|[l2 u2] [|??]]]; simplify_eq/=.
    done.
Qed.

(** C6. When the package page has no anchors, construction fails with
    [IndexError] at [package_versions[-1]]: one request was sent (the
    page), nothing was downloaded, and no instance results. *)
Theorem package_without_versions (name repo_url : string) (w : World)
    (resp : Response) :
  net w (repo_url +:+ name) = inr resp →
  find_all_a (text resp) = [] →
  new name repo_url w =
    (inl (IndexError "list index out of range"),
     after w [repo_url +:+ name] (fetch_log (repo_url +:+ name) 0)).
Proof.
  intros Hnet Hnone.
  pose proof (get_links_fetched find_all_a _ _ _ Hnet) as Hg.
  rewrite Hnone in Hg. cbn in Hg.
  unfold Package.new, construct, Package.__init__, bind, setattr, lift,
    of_result, fresh, last_item.
  cbn. by rewrite Hg.
Qed.

(** C7. Whatever the file name and the URL, and whether the download,
    the save, the dispatch or the reader returns or raises: the temporary
    directory that [extract_metadata] created exists during the call and,
    when the call is over, neither it nor anything below it is left. *)
Theorem extract_metadata_removes_tmpdir (filename : option string)
    (url : string) (w : World) (tmpdir : string) :
  (mkdtemp w).1 = inr tmpdir →
  fs (mkdtemp w).2 !! resolve (cwd w) tmpdir = Some Dir ∧
  removed (resolve (cwd w) tmpdir) (extract_metadata filename url w).2.
Proof.
  intros Hmk. destruct (mkdtemp w) as [r w1] eqn:Hmk'. cbn in Hmk. subst r.
  destruct (mkdtemp_loop_spec _ _ _ _ Hmk')
    as (Habs & Hfresh & Hfs & _ & _ & _ & _).
  split.
  - cbn. rewrite Hfs. apply lookup_insert_eq.
  - unfold Package.extract_metadata, with_TemporaryDirectory. rewrite Hmk'.
    destruct (bind _ _ w1) as [r w2]. cbn [snd].
    rewrite (resolve_absolute (cwd w)), <-(resolve_absolute (cwd w2)) by done.
    apply rmtree_removed.
Qed.

(** With a file name of neither suffix [extract_metadata] cannot return:
    whatever happens before the dispatch, the dispatch has no reader. *)
Lemma unsupported_suffix_never_returns (f url : string) (w : World) :
  Str.endswith f ".tar.gz" = false →
  Str.endswith f ".whl" = false →
  ∃ e, (extract_metadata (Some f) url w).1 = inl e.
Proof.
  intros Hsd Hwh.
  unfold Package.extract_metadata, with_TemporaryDirectory.
  destruct (mkdtemp w) as [[e|tmpdir] w1]; [by eexists|].
  unfold bind, log, requests_get, of_result, Package.join_label, local_var, raise.
  cbn -[write_file].
  destruct (net w1 url) as [e|resp]; [by eexists|]. cbn -[write_file].
  destruct (write_file _ _ _) as [[e|[]] w2]; [by eexists|]. cbn.
  rewrite !endswith_join by done. rewrite Hsd, Hwh. by eexists.
Qed.

(** C3. A file name that ends neither in [.tar.gz] nor in [.whl] leaves
    [dist] unassigned: once the artifact is downloaded and saved, the
    call [dist(pkgpath)] raises [UnboundLocalError] for [dist]. That is
    the error the caller sees; there is no unsupported-format error. *)
Theorem unsupported_suffix_unbound_dist (f url : string) (w : World)
    (tmpdir : string) (resp : Response) :
  Str.endswith f ".tar.gz" = false →
  Str.endswith f ".whl" = false →
  (mkdtemp w).1 = inr tmpdir →
  net w url = inr resp →
  (write_file (os_path_join tmpdir f) (content resp) (mkdtemp w).2).1 = inr tt →
  (extract_metadata (Some f) url w).1 = inl (UnboundLocalError "dist").
Proof.
  intros Hsd Hwh Hmk Hnet Hwr.
  destruct (mkdtemp w) as [r w1] eqn:Hmk'. cbn in Hmk, Hwr. subst r.
  destruct (mkdtemp_loop_spec _ _ _ _ Hmk')
    as (_ & _ & _ & Hn & _ & _ & _).
  unfold Package.extract_metadata, with_TemporaryDirectory. rewrite Hmk'.
  unfold bind, log, requests_get, of_result, Package.join_label, local_var, raise.
  cbn -[write_file]. rewrite Hn, Hnet. cbn -[write_file].
  match goal with
  | |- context [write_file ?p ?d ?w'] =>
      pose proof (write_file_result p d w1 w' eq_refl eq_refl) as Hw;
      destruct (write_file p d w') as [r w2]
  end.
  cbn in Hw. rewrite Hwr in Hw. subst r. cbn.
  rewrite !endswith_join by done. by rewrite Hsd, Hwh.
Qed.

End PackageFacts.

(** ** [_add_base_url] *)

(** A strippable tail disappears, and an unstrippable last character
    protects everything before it. *)
Lemma rstrip_app_strippable (chars s t : string) :
  Str.rstrip chars t = "" → Str.rstrip chars (s +:+ t) = Str.rstrip chars s.
Proof.
  intros Ht. induction s as [|x s IH]; [by rewrite append_nil|].
  rewrite append_cons. cbn [Str.rstrip]. by rewrite IH.
Qed.

Lemma rstrip_keeps (chars s : string) (c : ascii) :
  Str.mem c chars = false →
  Str.rstrip chars (s +:+ String c "") = s +:+ String c "".
Proof.
  intros Hc. induction s as [|x s IH]; [rewrite append_nil|rewrite append_cons];
    cbn [Str.rstrip].
  - by rewrite Hc.
  - rewrite IH. by destruct s.
Qed.

(** When the character before [/simple/] is none of its letters,
    [_add_base_url] removes exactly that suffix. *)
Lemma add_base_url_exact (host href : string) (c : ascii) :
  Str.mem c "/simple/" = false →
  PackageCrawler._add_base_url (crawler_at (host +:+ String c "/simple/")) href
    = inr ((host +:+ String c "") +:+ href).
Proof.
  intros Hc. unfold PackageCrawler._add_base_url, getattr_str, getattr, crawler_at.
  cbn [attrs]. rewrite lookup_singleton_eq.
  change (String c "/simple/") with (String c "" +:+ "/simple/").
  rewrite <-append_assoc, rstrip_app_strippable by reflexivity.
  by rewrite rstrip_keeps.
Qed.

(** C8. For the default root the joined URL is the expected one, eight
    characters having been trimmed; for a root whose host ends in a letter
    of [/simple/] the trimming goes one character further and eats into
    the host. No fixed number of characters describes what is trimmed. *)
Theorem add_base_url_overtrims :
  PackageCrawler._add_base_url (crawler_at "https://pypi.org/simple/") "/simple/pkg-a/"
    = inr "https://pypi.org/simple/pkg-a/" ∧
  PackageCrawler._add_base_url (crawler_at "https://example.com/simple/") "/simple/pkg-a/"
    = inr "https://example.co/simple/pkg-a/" ∧
  ¬ ∃ k : nat, ∀ root href,
      PackageCrawler._add_base_url (crawler_at root) href
        = inr (Str.drop_right k root +:+ href).
Proof.
  split; [reflexivity|]. split; [reflexivity|].
  intros [k Hk].
  pose proof (Hk "https://pypi.org/simple/" "") as H1.
  pose proof (Hk "https://example.com/simple/" "") as H2.
  vm_compute in H1, H2.
  do 30 (destruct k as [|k]; [vm_compute in H1, H2; congruence|]).
  vm_compute in H1. congruence.
Qed.

(** * The program at work in the sample world *)

Lemma get_links_swallows_network_error_witness :
  get_links Sample.find_all_a "https://down.example/simple/" Sample.cold =
    (inl (UnboundLocalError "res"),
     after Sample.cold ["https://down.example/simple/"]
       [(ERROR, "Failed to make the request: %s",
         [AExn (RequestException "Name or service not known")]);
        (DEBUG, "Parsing the HTML content...", [])]).
Proof.
  apply (get_links_swallows_network_error Sample.find_all_a
           "https://down.example/simple/" Sample.cold
           (RequestException "Name or service not known"));
    reflexivity.
Defined.

Lemma get_links_anchor_without_href_witness :
  net Sample.cold "https://pypi.org/simple/bad" = Sample.page Sample.broken_page ∧
  (get_links Sample.find_all_a "https://pypi.org/simple/bad" Sample.cold).1
    = inl (KeyError "href").
Proof.
  split; [reflexivity|].
  apply (get_links_anchor_without_href Sample.find_all_a
           "https://pypi.org/simple/bad" Sample.cold
           (mkResponse 200 Sample.broken_page Sample.broken_page) eq_refl).
  exists (mkTag (Some "top") {[ "name" := "top" ]}).
  split; [|reflexivity].
  vm_compute. apply list_elem_of_further, list_elem_of_here.
Defined.

Lemma cold_start_attribute_error_witness :
  fs Sample.cold !! snapshot_path Sample.cold = None ∧
  (get_links Sample.find_all_a PackageCrawler.default_url Sample.cold).1 =
    inr [(Some "pkg-a", "/simple/pkg-a/"); (Some "pkg-b", "/simple/pkg-b/")] ∧
  PackageCrawler.new Sample.find_all_a Sample.json_loads Sample.json_dumps
    PackageCrawler.default_url Sample.cold =
    (inl (AttributeError "PackageCrawler" "logger"), Sample.cold).
Proof.
  split; [reflexivity|]. split; [reflexivity|].
  apply (cold_start_attribute_error Sample.find_all_a Sample.json_loads
           Sample.json_dumps PackageCrawler.default_url Sample.cold).
  reflexivity.
Defined.

Lemma snapshot_construction_idempotent_witness :
  ∃ o1 w1 o2 w2,
    PackageCrawler.new Sample.find_all_a Sample.json_loads Sample.json_dumps
      PackageCrawler.default_url Sample.warm = (inr o1, w1) ∧
    PackageCrawler.new Sample.find_all_a Sample.json_loads Sample.json_dumps
      PackageCrawler.default_url w1 = (inr o2, w2) ∧
    attrs o1 !! "packages" = Some (VJson Sample.snapshot_value) ∧
    attrs o2 !! "packages" = Some (VJson Sample.snapshot_value) ∧
    sent w1 = sent Sample.warm ∧ sent w2 = sent Sample.warm ∧
    fs w1 = fs Sample.warm ∧ fs w2 = fs Sample.warm.
Proof.
  apply (snapshot_construction_idempotent Sample.find_all_a Sample.json_loads
           Sample.json_dumps PackageCrawler.default_url PackageCrawler.default_url
           Sample.warm Sample.snapshot_text Sample.snapshot_value);
    reflexivity.
Defined.

Lemma damaged_snapshot_parse_error_witness :
  ∃ w', PackageCrawler.new Sample.find_all_a Sample.json_loads Sample.json_dumps
          PackageCrawler.default_url Sample.damaged = (inl JSONDecodeError, w') ∧
        sent w' = sent Sample.damaged ∧ fs w' = fs Sample.damaged.
Proof.
  apply (damaged_snapshot_parse_error Sample.find_all_a Sample.json_loads
           Sample.json_dumps PackageCrawler.default_url Sample.damaged
           ("[[" +:+ Sample.quoted "pkg-a" +:+ ", "));
    reflexivity.
Defined.

Lemma latest_version_is_lexicographic_max_witness :
  ∃ latest,
    attrs (Package.__init__ Sample.find_all_a Sample.SDist Sample.Wheel
             "pkg" Package.default_repo_url
             (fresh "Package" Package.methods, Sample.cold)).2.1
      !! "latest_version" = Some (VLink latest) ∧
    latest.1 = Some "pkg-1.9.tar.gz".
Proof.
  destruct (latest_version_is_lexicographic_max Sample.find_all_a Sample.SDist
              Sample.Wheel "pkg" Package.default_repo_url Sample.cold
              [(Some "pkg-1.9.tar.gz", "https://files.example/pkg-1.9.tar.gz");
               (Some "pkg-1.10.tar.gz", "https://files.example/pkg-1.10.tar.gz")])
    as (latest & Hattr & _ & _ & _ & Hname).
  - reflexivity.
  - discriminate.
  - repeat constructor; by eexists.
  - exists latest. split; [exact Hattr|]. apply Hname. reflexivity.
Defined.

(** C1 (counterexample). A fetched list of two version links, the first
    of which has no text label: the list is not empty, yet the sort raises
    [TypeError], the construction fails with it, and [latest_version] is
    never set. *)
Lemma latest_version_unlabelled_counterexample :
  let links := [(None, "https://files.example/m-1.0.tar.gz");
                (Some "m-2.0.tar.gz", "https://files.example/m-2.0.tar.gz")] in
  (get_links Scenes.find_all_a (Package.default_repo_url +:+ "mixed") Scenes.web).1
    = inr links ∧
  links ≠ [] ∧
  (Package.new Scenes.find_all_a Sample.SDist Sample.Wheel
     "mixed" Package.default_repo_url Scenes.web).1
    = inl (TypeError "'<' not supported between instances") ∧
  attrs (Package.__init__ Scenes.find_all_a Sample.SDist Sample.Wheel
           "mixed" Package.default_repo_url
           (fresh "Package" Package.methods, Scenes.web)).2.1
    !! "latest_version" = None.
Proof. repeat split; vm_compute; reflexivity || discriminate. Qed.

Lemma package_without_versions_witness :
  Package.new Sample.find_all_a Sample.SDist Sample.Wheel
    "none" Package.default_repo_url Sample.cold =
    (inl (IndexError "list index out of range"),
     after Sample.cold ["https://pypi.org/simple/none"]
       (fetch_log "https://pypi.org/simple/none" 0)).
Proof.
  apply (package_without_versions Sample.find_all_a Sample.SDist Sample.Wheel
           "none" Package.default_repo_url Sample.cold
           (mkResponse 200 Sample.empty_page Sample.empty_page));
    reflexivity.
Defined.

Lemma extract_metadata_removes_tmpdir_witness :
  (mkdtemp Sample.cold).1 = inr "/tmp/tmpk3x9_q0a" ∧
  fs (mkdtemp Sample.cold).2 !! ["tmp"; "tmpk3x9_q0a"] = Some Dir ∧
  removed ["tmp"; "tmpk3x9_q0a"]
    (Package.extract_metadata Sample.SDist Sample.Wheel
       (Some "pkg-1.9.tar.gz") "https://files.example/pkg-1.9.tar.gz" Sample.cold).2.
Proof.
  split; [by vm_compute|].
  apply (extract_metadata_removes_tmpdir Sample.SDist Sample.Wheel
           (Some "pkg-1.9.tar.gz") "https://files.example/pkg-1.9.tar.gz"
           Sample.cold "/tmp/tmpk3x9_q0a").
  by vm_compute.
Defined.

Lemma unsupported_suffix_unbound_dist_witness :
  (Package.new Sample.find_all_a Sample.SDist Sample.Wheel
     "old" Package.default_repo_url Sample.cold).1
    = inl (UnboundLocalError "dist") ∧
  (Package.extract_metadata Sample.SDist Sample.Wheel
     (Some "old-1.0.zip") "https://files.example/old-1.0.zip" Sample.cold).1
    = inl (UnboundLocalError "dist").
Proof.
  split; [by vm_compute|].
  apply (unsupported_suffix_unbound_dist Sample.SDist Sample.Wheel
           "old-1.0.zip" "https://files.example/old-1.0.zip" Sample.cold
           "/tmp/tmpk3x9_q0a" (mkResponse 200 "zip-bytes" "zip-bytes"));
    by vm_compute.
Defined.

(** A construction that goes through: the page is fetched, the artifact
    is downloaded into the temporary directory and read, and the file
    system ends as it began. *)
Example package_pkg_constructed :
  let r := Package.new Sample.find_all_a Sample.SDist Sample.Wheel
             "pkg" Package.default_repo_url Sample.cold in
  attr_of r "latest_version" =
    Some (VLink (Some "pkg-1.9.tar.gz", "https://files.example/pkg-1.9.tar.gz")) ∧
  attr_of r "metadata" =
    Some (VMeta (mkMetadata (Some "pkg") (Some "1.9") ["numpy"])) ∧
  sent r.2 = ["https://pypi.org/simple/pkg"; "https://files.example/pkg-1.9.tar.gz"] ∧
  last (console r.2) =
    Some (DEBUG, "Saved package to %s", [AStr "/tmp/tmpk3x9_q0a/pkg-1.9.tar.gz"]) ∧
  fs r.2 = fs Sample.cold.
Proof. repeat split; vm_compute; reflexivity. Qed.

(** A construction that fails at the dispatch: the temporary directory is
    gone all the same. *)
Example package_old_fails :
  let r := Package.new Sample.find_all_a Sample.SDist Sample.Wheel
             "old" Package.default_repo_url Sample.cold in
  r.1 = inl (UnboundLocalError "dist") ∧
  last (console r.2) =
    Some (DEBUG, "Saved package to %s", [AStr "/tmp/tmpk3x9_q0a/old-1.0.zip"]) ∧
  fs r.2 = fs Sample.cold.
Proof. repeat split; vm_compute; reflexivity. Qed.

(** The two lists of section 8 of the specification, sorted. *)
Example sort_three :
  sort_by_label [(Some "pkg-1.9.0.tar.gz", "a"); (Some "pkg-1.10.0.tar.gz", "b");
                 (Some "pkg-2.0.0.tar.gz", "c")] =
    inr [(Some "pkg-1.10.0.tar.gz", "b"); (Some "pkg-1.9.0.tar.gz", "a");
         (Some "pkg-2.0.0.tar.gz", "c")].
Proof. reflexivity. Qed.

Example sort_two :
  sort_by_label [(Some "pkg-1.9.tar.gz", "a"); (Some "pkg-1.10.tar.gz", "b")] =
    inr [(Some "pkg-1.10.tar.gz", "b"); (Some "pkg-1.9.tar.gz", "a")].
Proof. reflexivity. Qed.

(** Equal labels keep their order, and a missing label stops the sort. *)
Example sort_stable :
  sort_by_label [(Some "b", "1"); (Some "a", "2"); (Some "b", "3"); (Some "a", "4")] =
    inr [(Some "a", "2"); (Some "a", "4"); (Some "b", "1"); (Some "b", "3")].
Proof. reflexivity. Qed.

Example sort_none :
  sort_by_label [(Some "a", "1"); (None, "2")] =
    inl (TypeError "'<' not supported between instances").
Proof. reflexivity. Qed.

(** * Further properties of the program *)

(** ** [get_links], whatever the page *)

Lemma link_pairs_state (links : list Tag) (w : World) :
  (mapM (λ link, of_result (link_pair link)) links w).2 = w.
Proof.
  by destruct (links_of_anchors links w) as [(r & -> & _)|(-> & _)].
Qed.

(** What [get_links] does to the world: one request and some log records. *)
Lemma get_links_world (find_all_a : string → list Tag) (url : string) (w : World) :
  ∃ recs, (get_links find_all_a url w).2 = after w [url] recs.
Proof.
  destruct (net w url) as [e|resp] eqn:Hnet.
  - unfold get_links, bind, try_except, requests_get, log, ret, local_var, raise, after.
    cbn. rewrite Hnet. destruct (is_Exception e); cbn.
    + eexists. by rewrite <-app_assoc.
    + exists []. by rewrite app_nil_r.
  - rewrite (get_links_fetched _ _ _ _ Hnet), link_pairs_state. by eexists.
Qed.

(** X1. When the page is fetched and every anchor has an [href],
    [get_links] returns, and what it returns is one pair per anchor, in
    document order, made of the anchor's text and its [href]; the HTTP
    status plays no part. *)
Theorem get_links_returns_pairs (find_all_a : string → list Tag)
    (url : string) (w : World) (resp : Response) (hrefs : list string) :
  net w url = inr resp →
  Forall2 (λ a h, tag_attrs a !! "href" = Some h) (find_all_a (text resp)) hrefs →
  (get_links find_all_a url w).1 =
    inr (zip (tag_string <$> find_all_a (text resp)) hrefs).
Proof.
  intros Hnet Hh. rewrite (get_links_fetched _ _ _ _ Hnet).
  generalize (after w [url]
                (fetch_log url (length (find_all_a (text resp))))). intros w'.
  enough (mapM (λ link, of_result (link_pair link)) (find_all_a (text resp)) w'
          = (inr (zip (tag_string <$> find_all_a (text resp)) hrefs), w'))
    as -> by done.
  induction Hh as [|a h anchors hrefs Ha _ IH]; [done|].
  cbn [mapM]. unfold bind, of_result, ret in *.
  unfold link_pair at 1, tag_getitem. rewrite Ha, IH. done.
Qed.

(** X2. Whatever the URL and whatever comes back, [get_links] sends
    exactly one request, to that URL, and leaves the file system, the
    working directory and the network as they were. *)
Theorem get_links_one_request (find_all_a : string → list Tag)
    (url : string) (w : World) :
  sent (get_links find_all_a url w).2 = sent w ++ [url] ∧
  fs (get_links find_all_a url w).2 = fs w ∧
  cwd (get_links find_all_a url w).2 = cwd w ∧
  net (get_links find_all_a url w).2 = net w.
Proof.
  destruct (get_links_world find_all_a url w) as [recs ->]. done.
Qed.

(** X3. The [except Exception] clause lets through what is no
    [Exception]: such an exception of the request is the exception
    [get_links] raises, where an [Exception] would have ended in
    [UnboundLocalError]. *)
Theorem get_links_base_exception (find_all_a : string → list Tag)
    (url : string) (w : World) (e : exn) :
  net w url = inl e →
  is_Exception e = false →
  (get_links find_all_a url w).1 = inl e.
Proof.
  intros Hnet Hexn.
  unfold get_links, bind, try_except, requests_get.
  cbn. by rewrite Hnet, Hexn.
Qed.

(** ** [PackageCrawler], whatever the working directory holds *)

Section CrawlerCases.

Variable find_all_a : string → list Tag.
Variable json_loads : string → option json.
Variable json_dumps : json → string.

Local Abbreviation new := (PackageCrawler.new find_all_a json_loads json_dumps).

(** The three ways a construction can go. *)
Lemma new_cases (url : string) (w : World) :
  new url w =
    match fs w !! snapshot_path w with
    | Some (File data) =>
        (match json_loads data with
         | Some j =>
             inr (mkObj "PackageCrawler" PackageCrawler.methods
                    (<["packages" := VJson j]> {[ "repo_url" := VStr url ]}))
         | None => inl JSONDecodeError
         end,
         after w [] [(DEBUG, "packages.json exists, skipping request", [])])
    | Some Dir =>
        (inl (IsADirectoryError "packages.json"),
         after w [] [(DEBUG, "packages.json exists, skipping request", [])])
    | None => (inl (AttributeError "PackageCrawler" "logger"), w)
    end.
Proof.
  destruct (fs w !! snapshot_path w) as [[|data]|] eqn:Hsnap.
  - unfold snapshot_path in Hsnap.
    unfold PackageCrawler.new, construct, PackageCrawler.__init__, bind, setattr,
      with_self, PackageCrawler._get_packages, bind, os_path_exists, read_file,
      log, of_result, ret, fresh, after.
    cbn. rewrite lookup_node_snoc, Hsnap. cbn.
    by rewrite lookup_node_snoc, Hsnap, app_nil_r.
  - rewrite (new_from_snapshot _ _ _ _ _ _ Hsnap). by destruct (json_loads data).
  - unfold snapshot_path in Hsnap.
    unfold PackageCrawler.new, construct, PackageCrawler.__init__, bind, setattr,
      with_self, PackageCrawler._get_packages, bind, os_path_exists,
      of_result, fresh.
    cbn. rewrite lookup_node_snoc, Hsnap. cbn. by destruct w.
Qed.

(** X4. A [PackageCrawler] comes into being exactly when [packages.json]
    is a file that holds JSON: the instance then has the two attributes
    [repo_url] and [packages], the second being the parsed file, and the
    only trace in the world is one debug record. *)
Theorem crawler_constructed_iff (url : string) (w w' : World) (o : Obj) :
  new url w = (inr o, w') ↔
  ∃ data j,
    fs w !! snapshot_path w = Some (File data) ∧
    json_loads data = Some j ∧
    o = mkObj "PackageCrawler" PackageCrawler.methods
          (<["packages" := VJson j]> {[ "repo_url" := VStr url ]}) ∧
    w' = after w [] [(DEBUG, "packages.json exists, skipping request", [])].
Proof.
  rewrite new_cases. split.
  - destruct (fs w !! snapshot_path w) as [[|data]|]; [done| |done].
    destruct (json_loads data) as [j|] eqn:Hj; [|done].
    intros [= <- <-]. by exists data, j.
  - intros (data & j & -> & -> & -> & ->). done.
Qed.

(** X5. No construction of a [PackageCrawler], successful or not, sends a
    request or changes the file system: [packages.json] is read at most,
    never written. *)
Theorem crawler_never_fetches_nor_writes (url : string) (w : World) :
  sent (new url w).2 = sent w ∧ fs (new url w).2 = fs w.
Proof.
  rewrite new_cases.
  destruct (fs w !! snapshot_path w) as [[|data]|]; cbn;
    by rewrite ?app_nil_r.
Qed.

End CrawlerCases.

(** ** [_add_base_url] on any root *)

Lemma rstrip_all_strippable (chars t : string) :
  (∀ c, Str.mem c t = true → Str.mem c chars = true) → Str.rstrip chars t = "".
Proof.
  induction t as [|x t IH]; intros Ht; [done|].
  cbn [Str.rstrip]. rewrite IH.
  - rewrite (Ht x); [done|]. cbn [Str.mem]. by rewrite Ascii.eqb_refl.
  - intros c Hc. apply Ht. cbn [Str.mem]. rewrite Hc. apply orb_true_r.
Qed.

Lemma add_base_url_rstrip (root href : string) :
  PackageCrawler._add_base_url (crawler_at root) href
    = inr (Str.rstrip "/simple/" root +:+ href).
Proof.
  unfold PackageCrawler._add_base_url, getattr_str, getattr, crawler_at.
  cbn [attrs]. by rewrite lookup_singleton_eq.
Qed.

(** X6. What [_add_base_url] returns, for any root: the root is cut in
    two, the part that is kept is followed by the href, the part that is
    dropped consists of letters of [/simple/] only, and the part that is
    kept does not end in such a letter. In particular the result never
    has a slash of the root's before the href. *)
Theorem add_base_url_shape (root href : string) :
  ∃ kept dropped,
    root = kept +:+ dropped ∧
    PackageCrawler._add_base_url (crawler_at root) href = inr (kept +:+ href) ∧
    (∀ c, Str.mem c dropped = true → Str.mem c "/simple/" = true) ∧
    (∀ r c, kept = r +:+ String c "" → Str.mem c "/simple/" = false).
Proof.
  destruct (rstrip_spec "/simple/" root) as (t & Hroot & Ht & Hlast).
  exists (Str.rstrip "/simple/" root), t.
  by rewrite add_base_url_rstrip.
Qed.

(** X7. Letters of [/simple/] at the end of the root make no difference:
    a root with or without its final slash, with or without [/simple/],
    gives the same URLs. *)
Theorem add_base_url_ignores_tail (root tail href : string) :
  (∀ c, Str.mem c tail = true → Str.mem c "/simple/" = true) →
  PackageCrawler._add_base_url (crawler_at (root +:+ tail)) href
    = PackageCrawler._add_base_url (crawler_at root) href.
Proof.
  intros Ht. rewrite !add_base_url_rstrip.
  by rewrite rstrip_app_strippable by by apply rstrip_all_strippable.
Qed.

(** ** [extract_metadata], step by step *)

(** What a write does to the world. *)
Lemma write_file_world (name data : string) (w : World) :
  (write_file name data w).2 =
    match (write_file name data w).1 with
    | inr _ => set_fs (<[resolve (cwd w) name := File data]> (fs w)) w
    | inl _ => w
    end.
Proof.
  unfold write_file.
  destruct (String.eqb name ""); [done|].
  destruct (Str.endswith name "/"); [done|].
  destruct (lookup_node (fs w) (resolve (cwd w) name)) as [[|?]|];
    [done|by destruct (lookup_node _ (removelast _)) as [[|?]|]..].
Qed.

(** A write that succeeds did not aim at the root. *)
Lemma write_file_target (name data : string) (w : World) :
  (write_file name data w).1 = inr tt → resolve (cwd w) name ≠ [].
Proof.
  unfold write_file.
  destruct (String.eqb name ""); [done|].
  destruct (Str.endswith name "/"); [done|].
  by destruct (resolve (cwd w) name).
Qed.

(** When no directory can be made, [mkdtemp] leaves the world as it was,
    the name generator apart. *)
Lemma mkdtemp_loop_failed (n : nat) (w w1 : World) (e : exn) :
  mkdtemp_loop n w = (inl e, w1) →
  fs w1 = fs w ∧ net w1 = net w ∧ sent w1 = sent w ∧
  cwd w1 = cwd w ∧ console w1 = console w.
Proof.
  revert w. induction n as [|n IH]; intros w.
  - by intros [= <- <-].
  - cbn [mkdtemp_loop]. unfold bind, next_name, os_mkdir. cbn [cwd fs].
    set (file := "/tmp/tmp" +:+ rand_names w (rand_pos w)).
    destruct (lookup_node (fs w) (resolve (cwd w) file)) as [nd|].
    + intros H. apply IH in H. exact H.
    + destruct (lookup_node (fs w) (removelast (resolve (cwd w) file)))
        as [[|?]|]; [done|by intros [= <- <-]..].
Qed.

(** The directory [mkdtemp] makes is not the root. *)
Lemma mkdtemp_loop_target (n : nat) (w w1 : World) (d : string) :
  mkdtemp_loop n w = (inr d, w1) → resolve (cwd w) d ≠ [].
Proof.
  revert w. induction n as [|n IH]; intros w; [done|].
  cbn [mkdtemp_loop]. unfold bind, next_name, os_mkdir. cbn [cwd fs].
  set (file := "/tmp/tmp" +:+ rand_names w (rand_pos w)).
  destruct (lookup_node (fs w) (resolve (cwd w) file)) as [nd|] eqn:Hl.
  - intros H. apply IH in H. exact H.
  - destruct (lookup_node (fs w) (removelast (resolve (cwd w) file)))
      as [[|?]|]; [|done..].
    intros [= <- <-] Hnil. by rewrite Hnil in Hl.
Qed.

Section ExtractSteps.

Variable SDist : string → string → result Metadata.
Variable Wheel : string → string → result Metadata.

Local Abbreviation extract_metadata := (Package.extract_metadata SDist Wheel).

(** The file system a call leaves: that after [mkdtemp], with the
    artifact in it when it was saved, less the temporary directory. *)
Lemma extract_metadata_fs (filename : option string) (url : string)
    (w w1 : World) (tmpdir : string) :
  mkdtemp w = (inr tmpdir, w1) →
  fs (extract_metadata filename url w).2 =
    filter (λ kv, ¬ resolve (cwd w) tmpdir `prefix_of` kv.1)
      match filename, net w url with
      | Some f, inr resp =>
          match (write_file (os_path_join tmpdir f) (content resp) w1).1 with
          | inr _ =>
              <[resolve (cwd w) (os_path_join tmpdir f) := File (content resp)]> (fs w1)
          | inl _ => fs w1
          end
      | _, _ => fs w1
      end.
Proof.
  intros Hmk.
  destruct (mkdtemp_loop_spec _ _ _ _ Hmk) as (_ & _ & _ & Hn & _ & Hcwd & _).
  rewrite <-Hn, <-Hcwd.
  unfold Package.extract_metadata, with_TemporaryDirectory. rewrite Hmk.
  unfold bind, log, requests_get, of_result, Package.join_label, local_var,
    raise, ret, Package.call_reader, read_file, rmtree.
  cbn -[write_file].
  destruct filename as [f|], (net w1 url) as [e|resp]; cbn -[write_file];
    [done| |done..].
  destruct (write_file (os_path_join tmpdir f) (content resp) w1).1
    as [e1|[]] eqn:Hw1;
    match goal with
    | |- context [write_file ?p ?d ?w'] =>
        pose proof (write_file_result p d w1 w' eq_refl eq_refl) as Hr;
        pose proof (write_file_world p d w') as Hw;
        destruct (write_file p d w') as [r w2]
    end;
    cbn in Hr, Hw; rewrite Hw1 in Hr; subst r w2; cbn; [done|].
  destruct (Str.endswith _ ".tar.gz"); cbn.
  { unfold bind, of_result. cbn.
    destruct (lookup_node _ _) as [[|?]|]; [done| |done]. by destruct (SDist _ _). }
  destruct (Str.endswith _ ".whl"); cbn; [|done].
  unfold bind, of_result. cbn.
  destruct (lookup_node _ _) as [[|?]|]; [done| |done]. by destruct (Wheel _ _).
Qed.

(** The requests a call sends: one, when the directory could be made. *)
Lemma extract_metadata_sent (filename : option string) (url : string) (w : World) :
  sent (extract_metadata filename url w).2 =
    match (mkdtemp w).1 with
    | inr _ => sent w ++ [url]
    | inl _ => sent w
    end.
Proof.
  unfold Package.extract_metadata, with_TemporaryDirectory.
  destruct (mkdtemp w) as [[e|tmpdir] w1] eqn:Hmk; cbn.
  - by destruct (mkdtemp_loop_failed _ _ _ _ Hmk) as (_ & _ & -> & _).
  - destruct (mkdtemp_loop_spec _ _ _ _ Hmk) as (_ & _ & _ & _ & Hs & _ & _).
    unfold bind, log, requests_get, of_result, Package.join_label, local_var,
      raise, ret, Package.call_reader, read_file, rmtree.
    cbn -[write_file]. rewrite Hs.
    destruct filename as [f|], (net w1 url) as [e|resp]; cbn -[write_file];
      [done| |done..].
    match goal with
    | |- context [write_file ?p ?d ?w'] =>
        pose proof (write_file_world p d w') as Hw;
        destruct (write_file p d w') as [r w2]
    end.
    cbn in Hw. subst w2. destruct r as [e|[]]; cbn; [done|].
    destruct (Str.endswith _ ".tar.gz"); cbn.
    { unfold bind, of_result. cbn.
      destruct (lookup_node _ _) as [[|?]|]; [done| |done]. by destruct (SDist _ _). }
    destruct (Str.endswith _ ".whl"); cbn; [|done].
    unfold bind, of_result. cbn.
    destruct (lookup_node _ _) as [[|?]|]; [done| |done]. by destruct (Wheel _ _).
Qed.

End ExtractSteps.

(** ** Paths of plain file names *)

Lemma split_nonempty (sep : ascii) (s : string) : Str.split sep s ≠ [].
Proof.
  destruct s as [|c s]; cbn [Str.split]; [done|].
  destruct (Ascii.eqb c sep); [done|]. by destruct (Str.split sep s).
Qed.

Lemma split_no_sep (sep : ascii) (s : string) :
  Str.mem sep s = false → Str.split sep s = [s].
Proof.
  induction s as [|c s IH]; cbn [Str.split Str.mem]; [done|].
  intros [Hc Hs]%orb_false_iff. rewrite Ascii.eqb_sym, Hc. by rewrite IH.
Qed.

Lemma split_app_sep (sep : ascii) (a b : string) :
  Str.split sep (a +:+ String sep b) = Str.split sep a ++ Str.split sep b.
Proof.
  induction a as [|c a IH]; [rewrite append_nil|rewrite append_cons];
    cbn [Str.split].
  - by rewrite Ascii.eqb_refl.
  - destruct (Ascii.eqb c sep); rewrite IH; [done|].
    pose proof (split_nonempty sep a). by destruct (Str.split sep a).
Qed.

Lemma starts_with_char_app (c : ascii) (a b : string) :
  a ≠ "" → Str.starts_with_char c (a +:+ b) = Str.starts_with_char c a.
Proof. by destruct a. Qed.

Lemma plain_name_spec (f : string) :
  plain_name f = true →
  Str.mem "/" f = false ∧ Str.starts_with_char "/" f = false ∧
  ∀ acc, path_step acc f = acc ++ [f].
Proof.
  unfold plain_name. rewrite !andb_true_iff, !negb_true_iff.
  intros [[[Hm He] Hd] Hdd]. split; [done|]. split.
  - destruct f as [|c f]; [done|]. cbn in *.
    by apply orb_false_iff in Hm as [-> _].
  - intros acc. unfold path_step. by rewrite He, Hd, Hdd.
Qed.

(** A plain name joined to a directory lies directly in that directory. *)
Lemma resolve_join_plain (c : list string) (dir f : string) :
  plain_name f = true →
  resolve c (os_path_join dir f) = resolve c dir ++ [f].
Proof.
  intros (Hm & Hs & Hstep)%plain_name_spec.
  unfold os_path_join. rewrite Hs.
  destruct (String.eqb_spec dir "") as [->|Hdir].
  { unfold resolve. rewrite Hs, (split_no_sep _ _ Hm). cbn. apply Hstep. }
  destruct (Str.endswith dir "/") eqn:Hend.
  - apply endswith_inv in Hend as [p ->].
    unfold resolve. rewrite starts_with_char_app by done.
    rewrite append_assoc. change ("/" +:+ f) with (String "/" f).
    rewrite !split_app_sep, (split_no_sep _ _ Hm), !fold_left_app. cbn.
    apply Hstep.
  - unfold resolve. rewrite starts_with_char_app by done.
    change ("/" +:+ f) with (String "/" f).
    rewrite split_app_sep, (split_no_sep _ _ Hm), fold_left_app. cbn.
    apply Hstep.
Qed.

(** ** Trees *)

Lemma filter_below_lookup (d p : list string) (m : gmap (list string) node) :
  filter (λ kv, ¬ d `prefix_of` kv.1) m !! p =
    if decide (d `prefix_of` p) then None else m !! p.
Proof.
  destruct (decide (d `prefix_of` p)) as [Hp|Hp].
  - apply map_lookup_filter_None. right. intros nd _ Hn. by apply Hn.
  - destruct (m !! p) as [nd|] eqn:Hm.
    + by apply map_lookup_filter_Some.
    + apply map_lookup_filter_None. by left.
Qed.

(** In a tree nothing lies below a path that does not exist. *)
Lemma tree_nothing_below (m : gmap (list string) node) (d p : list string) :
  tree_shaped m → d ≠ [] → m !! d = None → d `prefix_of` p → m !! p = None.
Proof.
  intros Htree Hd Hnone [k ->].
  induction k as [|x k IH] using rev_ind; [by rewrite app_nil_r|].
  destruct (m !! (d ++ k ++ [x])) as [nd|] eqn:Hp; [|done].
  apply Htree in Hp. cbn in Hp.
  rewrite app_assoc, removelast_last in Hp.
  destruct (d ++ k) as [|y l] eqn:Hdk; [by destruct d|].
  cbn in Hp. congruence.
Qed.

(** ** [extract_metadata]: what the caller gets and what stays behind *)

Section ExtractFacts.

Variable SDist : string → string → result Metadata.
Variable Wheel : string → string → result Metadata.

Local Abbreviation extract_metadata := (Package.extract_metadata SDist Wheel).

(** X8. With a supported suffix, what [extract_metadata] returns or
    raises is what the reader of that suffix returns or raises on the
    path inside the temporary directory and on exactly the bytes that
    were downloaded: [SDist] for [.tar.gz], [Wheel] for [.whl]. *)
Theorem extract_metadata_reads_download (f url : string) (w : World)
    (tmpdir : string) (resp : Response) :
  (mkdtemp w).1 = inr tmpdir →
  net w url = inr resp →
  (write_file (os_path_join tmpdir f) (content resp) (mkdtemp w).2).1 = inr tt →
  Str.endswith f ".tar.gz" || Str.endswith f ".whl" = true →
  (extract_metadata (Some f) url w).1 =
    (if Str.endswith f ".tar.gz" then SDist else Wheel)
      (os_path_join tmpdir f) (content resp).
Proof.
  intros Hmk Hnet Hwr Hsfx.
  destruct (mkdtemp w) as [r w1] eqn:Hmk'. cbn in Hmk, Hwr. subst r.
  destruct (mkdtemp_loop_spec _ _ _ _ Hmk') as (_ & _ & _ & Hn & _ & _ & _).
  pose proof (write_file_target _ _ _ Hwr) as Hp.
  unfold Package.extract_metadata, with_TemporaryDirectory. rewrite Hmk'.
  unfold bind, log, requests_get, of_result, Package.join_label, local_var,
    raise, ret, Package.call_reader, read_file.
  cbn -[write_file]. rewrite Hn, Hnet. cbn -[write_file].
  match goal with
  | |- context [write_file ?p ?d ?w'] =>
      pose proof (write_file_result p d w1 w' eq_refl eq_refl) as Hr;
      pose proof (write_file_world p d w') as Hw;
      destruct (write_file p d w') as [r w2]
  end.
  cbn in Hr, Hw. rewrite Hwr in Hr. subst r w2. cbn.
  rewrite !endswith_join by done.
  assert (∀ m : gmap (list string) node,
            lookup_node (<[resolve (cwd w1) (os_path_join tmpdir f) :=
                           File (content resp)]> m)
              (resolve (cwd w1) (os_path_join tmpdir f))
            = Some (File (content resp))) as Hlook.
  { intros m. destruct (resolve (cwd w1) (os_path_join tmpdir f)) eqn:Hres;
      [done|]. cbn. apply lookup_insert_eq. }
  destruct (Str.endswith f ".tar.gz"); cbn.
  - unfold bind, of_result. cbn. rewrite Hlook. by destruct (SDist _ _).
  - cbn in Hsfx. rewrite Hsfx. cbn.
    unfold bind, of_result. cbn. rewrite Hlook. by destruct (Wheel _ _).
Qed.

(** X9. Unlike the page request in [get_links], the download is not
    guarded: an exception of the artifact request is the exception of
    [extract_metadata], whatever its kind. *)
Theorem extract_metadata_download_error (filename : option string)
    (url : string) (w : World) (tmpdir : string) (e : exn) :
  (mkdtemp w).1 = inr tmpdir →
  net w url = inl e →
  (extract_metadata filename url w).1 = inl e.
Proof.
  intros Hmk Hnet.
  destruct (mkdtemp w) as [r w1] eqn:Hmk'. cbn in Hmk. subst r.
  destruct (mkdtemp_loop_spec _ _ _ _ Hmk') as (_ & _ & _ & Hn & _ & _ & _).
  unfold Package.extract_metadata, with_TemporaryDirectory. rewrite Hmk'.
  unfold bind, log, requests_get. cbn. by rewrite Hn, Hnet.
Qed.

(** X10. A link without a label reaches [extract_metadata] as the file
    name [None]: the artifact is requested all the same, and only then
    does joining the path raise [TypeError]. *)
Theorem extract_metadata_without_label (url : string) (w : World)
    (tmpdir : string) (resp : Response) :
  (mkdtemp w).1 = inr tmpdir →
  net w url = inr resp →
  (extract_metadata None url w).1 =
    inl (TypeError "join() argument must be str, bytes, or os.PathLike object, not 'NoneType'") ∧
  sent (extract_metadata None url w).2 = sent w ++ [url].
Proof.
  intros Hmk Hnet. split.
  - destruct (mkdtemp w) as [r w1] eqn:Hmk'. cbn in Hmk. subst r.
    destruct (mkdtemp_loop_spec _ _ _ _ Hmk') as (_ & _ & _ & Hn & _ & _ & _).
    unfold Package.extract_metadata, with_TemporaryDirectory. rewrite Hmk'.
    unfold bind, log, requests_get, of_result, Package.join_label.
    cbn. by rewrite Hn, Hnet.
  - by rewrite extract_metadata_sent, Hmk.
Qed.

(** X11. A label that is an absolute path takes the artifact out of the
    temporary directory: [os.path.join] returns the label itself, the
    bytes are written there, and when the call is over the file is still
    there, whatever the reader made of it. *)
Theorem extract_metadata_absolute_label (f url : string) (w : World)
    (tmpdir : string) (resp : Response) :
  Str.starts_with_char "/" f = true →
  (mkdtemp w).1 = inr tmpdir →
  net w url = inr resp →
  (write_file f (content resp) (mkdtemp w).2).1 = inr tt →
  ¬ resolve (cwd w) tmpdir `prefix_of` resolve (cwd w) f →
  fs (extract_metadata (Some f) url w).2 !! resolve (cwd w) f
    = Some (File (content resp)).
Proof.
  intros Habs Hmk Hnet Hwr Hout.
  destruct (mkdtemp w) as [r w1] eqn:Hmk'. cbn in Hmk, Hwr. subst r.
  rewrite (extract_metadata_fs _ _ _ _ _ _ _ Hmk'), Hnet.
  assert (os_path_join tmpdir f = f) as -> by (unfold os_path_join; by rewrite Habs).
  rewrite Hwr, filter_below_lookup.
  destruct (decide _); [done|]. apply lookup_insert_eq.
Qed.

(** X12. With a plain file name, or none, and a file system that is a
    tree, a call of [extract_metadata] leaves the file system exactly as
    it found it, whether it returns or raises and wherever it stops. *)
Theorem extract_metadata_no_residue (filename : option string)
    (url : string) (w : World) :
  tree_shaped (fs w) →
  (∀ f, filename = Some f → plain_name f = true) →
  fs (extract_metadata filename url w).2 = fs w.
Proof.
  intros Htree Hplain.
  destruct (mkdtemp w) as [[e|tmpdir] w1] eqn:Hmk.
  { unfold Package.extract_metadata, with_TemporaryDirectory. rewrite Hmk.
    cbn. by destruct (mkdtemp_loop_failed _ _ _ _ Hmk) as (-> & _). }
  rewrite (extract_metadata_fs _ _ _ _ _ _ _ Hmk).
  destruct (mkdtemp_loop_spec _ _ _ _ Hmk) as (_ & Hfresh & Hfs & _).
  set (d := resolve (cwd w) tmpdir) in *.
  assert (d ≠ []) as Hd by by eapply mkdtemp_loop_target.
  apply map_eq. intros p. rewrite filter_below_lookup.
  destruct (decide (d `prefix_of` p)) as [Hp|Hp].
  { symmetry. by apply (tree_nothing_below _ d). }
  assert (p ≠ d) as Hpd by (by intros ->).
  assert (fs w1 !! p = fs w !! p) as Hw1.
  { rewrite Hfs. by apply lookup_insert_ne. }
  destruct filename as [f|], (net w url) as [e|resp]; try done.
  destruct (write_file _ _ _).1; [done|].
  rewrite (resolve_join_plain _ _ _ (Hplain f eq_refl)).
  rewrite lookup_insert_ne; [done|].
  intros <-. apply Hp. by apply prefix_app_r.
Qed.

End ExtractFacts.

(** ** The sort, once more *)

Lemma insert_link_error (x : Link) (l : list Link) (e : exn) :
  insert_link x l = inl e → e = TypeError "'<' not supported between instances".
Proof.
  induction l as [|y l IH]; cbn [insert_link]; [done|].
  unfold py_lt. destruct y.1, x.1; try by intros [= <-].
  destruct (String.ltb _ _); [|done].
  destruct (insert_link x l); [|done]. intros [= <-]. by apply IH.
Qed.

Lemma sort_by_label_error_kind (l : list Link) (e : exn) :
  sort_by_label l = inl e → e = TypeError "'<' not supported between instances".
Proof.
  induction l as [|x l IH]; cbn [sort_by_label]; [done|].
  destruct (sort_by_label l) as [e'|s].
  - intros [= <-]. by apply IH.
  - apply insert_link_error.
Qed.

Lemma leb_ltb_false (x y : string) : String.leb x y = true → String.ltb y x = false.
Proof.
  unfold String.ltb, String.leb. rewrite (String.compare_antisym x y).
  by destruct (String.compare y x).
Qed.

(** Where the last element is after an insertion. *)
Lemma insert_link_last (x : Link) (s r : list Link) :
  has_label x → Forall has_label s → StronglySorted label_le s →
  insert_link x s = inr r →
  last r = match last s with
           | None => Some x
           | Some m => if label_ltb m x then Some x else Some m
           end.
Proof.
  intros [fx Hx] Hl Hs. revert r.
  induction Hs as [|y s Hs IH Hy]; intros r; cbn [insert_link].
  - by intros [= <-].
  - apply Forall_cons in Hl as [[fy Hfy] Hl].
    unfold py_lt. rewrite Hfy, Hx.
    destruct (String.ltb fy fx) eqn:Hlt.
    + destruct (insert_link x s) as [e|r'] eqn:Hr; [done|]. intros [= <-].
      pose proof (insert_link_perm _ _ _ Hr) as Hperm.
      destruct r' as [|z r']; [by apply Permutation_nil_l in Hperm|].
      rewrite last_cons_cons, (IH Hl _ eq_refl).
      destruct s as [|y' s']; [|done].
      cbn. unfold label_ltb. by rewrite Hfy, Hx, Hlt.
    + intros [= <-]. rewrite last_cons_cons.
      destruct (last (y :: s)) as [m|] eqn:Hm; [|by apply last_None in Hm].
      assert (label_le y m) as Hym.
      { destruct s as [|y' s'].
        - cbn in Hm. simplify_eq. unfold label_le. rewrite Hfy.
          apply Is_true_true. change (String.le fy fy). reflexivity.
        - rewrite last_cons_cons in Hm.
          eapply Forall_forall; [exact Hy|]. by eapply last_Some_elem_of. }
      unfold label_le in Hym. rewrite Hfy in Hym.
      unfold label_ltb. rewrite Hx.
      destruct m.1 as [fm|]; [|done].
      rewrite (leb_ltb_false fx fm); [done|].
      eapply leb_trans; [|exact Hym]. by apply ltb_false_leb.
Qed.

(** Sorting and taking the last element is one pass for the maximum in
    which, of equal labels, the later one stays. *)
Lemma sort_last_rightmost (l : list Link) :
  Forall has_label l →
  ∃ s, sort_by_label l = inr s ∧ last s = rightmost_max l.
Proof.
  induction 1 as [|x l Hx Hl (s2 & Hs2 & Hlast)]; cbn [sort_by_label rightmost_max].
  - by exists [].
  - destruct (sort_by_label_sorted l Hl) as (s & Hs & Hp & Hss).
    assert (s2 = s) as -> by congruence.
    rewrite Hs.
    destruct (insert_link_sorted x s) as (r & Hr & _); [done|by rewrite Hp|done|].
    exists r. split; [done|].
    rewrite (insert_link_last x s r); [by rewrite Hlast|done|by rewrite Hp|done..].
Qed.

(** ** [Package], from the page to the instance *)

Section PackageSteps.

Variable find_all_a : string → list Tag.
Variable SDist : string → string → result Metadata.
Variable Wheel : string → string → result Metadata.

Local Abbreviation init := (Package.__init__ find_all_a SDist Wheel).
Local Abbreviation new := (Package.new find_all_a SDist Wheel).
Local Abbreviation extract_metadata := (Package.extract_metadata SDist Wheel).

(** X13. An error of [get_links] on the package page is the error of the
    construction, and the construction stops there: nothing is sorted and
    nothing is downloaded. *)
Theorem package_page_error (name repo_url : string) (w : World) (e : exn) :
  (get_links find_all_a (repo_url +:+ name) w).1 = inl e →
  new name repo_url w = (inl e, (get_links find_all_a (repo_url +:+ name) w).2).
Proof.
  intros Hg.
  destruct (get_links find_all_a (repo_url +:+ name) w) as [r w1] eqn:Hgl.
  cbn in Hg. subst r.
  unfold Package.new, construct, Package.__init__, bind, setattr, lift, fresh.
  cbn. by rewrite Hgl.
Qed.

(** X14. When the page lists two or more links and one of them has no
    label, the sort compares [None] with a string and the construction
    raises [TypeError]; nothing is downloaded. *)
Theorem package_unlabelled_link (name repo_url : string) (w : World)
    (links : list Link) :
  (get_links find_all_a (repo_url +:+ name) w).1 = inr links →
  (2 ≤ length links)%nat →
  (∃ l, l ∈ links ∧ l.1 = None) →
  new name repo_url w =
    (inl (TypeError "'<' not supported between instances"),
     (get_links find_all_a (repo_url +:+ name) w).2).
Proof.
  intros Hg Hlen Hnone.
  destruct (proj2 (sort_by_label_error links) (conj Hlen Hnone)) as [e He].
  pose proof (sort_by_label_error_kind _ _ He) as ->.
  destruct (get_links find_all_a (repo_url +:+ name) w) as [r w1] eqn:Hgl.
  cbn in Hg. subst r.
  unfold Package.new, construct, Package.__init__, bind, setattr, lift,
    of_result, fresh.
  cbn. rewrite Hgl. cbn. by rewrite He.
Qed.

(** X15. Which link becomes [latest_version] when labels tie: the one
    pass from the right of [rightmost_max] gives the link the sort puts
    last, so of several links with the greatest label the one that comes
    last on the page is taken; with no link at all the attribute is not
    set. *)
Theorem latest_version_rightmost (name repo_url : string) (w : World)
    (links : list Link) :
  (get_links find_all_a (repo_url +:+ name) w).1 = inr links →
  Forall has_label links →
  attrs (init name repo_url (fresh "Package" Package.methods, w)).2.1
    !! "latest_version" = VLink <$> rightmost_max links.
Proof.
  intros Hg Hlab.
  destruct (sort_last_rightmost links Hlab) as (s & Hs & Hlast).
  destruct (get_links find_all_a (repo_url +:+ name) w) as [r w1] eqn:Hgl.
  cbn in Hg. subst r.
  unfold Package.__init__, bind, setattr, lift, of_result, fresh, last_item.
  cbn. rewrite Hgl. cbn. rewrite Hs. cbn. rewrite Hlast.
  destruct (rightmost_max links) as [latest|]; cbn; [|done].
  destruct (Package.extract_metadata _ _ _ _ _) as [[e|m] w2]; cbn.
  - by rewrite lookup_insert_eq.
  - rewrite lookup_insert_ne; [|done]. by rewrite lookup_insert_eq.
Qed.

(** Without a file name nothing is returned. *)
Lemma extract_metadata_none_fails (url : string) (w : World) :
  ∃ e, (extract_metadata None url w).1 = inl e.
Proof.
  unfold Package.extract_metadata, with_TemporaryDirectory.
  destruct (mkdtemp w) as [[e|tmpdir] w1]; [by eexists|].
  unfold bind, log, requests_get, of_result, Package.join_label. cbn.
  destruct (net w1 url); by eexists.
Qed.

(** X16. What a constructed [Package] is: its [package_versions] are the
    fetched links, all of them labelled, in ascending order of label; its
    [latest_version] is the last of them, and its file name ends in
    [.tar.gz] or [.whl]; [name], [repo_url] and [metadata] are set. *)
Theorem package_constructed_shape (name repo_url : string) (w : World) (o : Obj) :
  (new name repo_url w).1 = inr o →
  ∃ links sorted latest f m,
    (get_links find_all_a (repo_url +:+ name) w).1 = inr links ∧
    Forall has_label links ∧
    sorted ≡ₚ links ∧ StronglySorted label_le sorted ∧
    last sorted = Some latest ∧ latest.1 = Some f ∧
    Str.endswith f ".tar.gz" || Str.endswith f ".whl" = true ∧
    attrs o !! "name" = Some (VStr name) ∧
    attrs o !! "repo_url" = Some (VStr repo_url) ∧
    attrs o !! "package_versions" = Some (VLinks sorted) ∧
    attrs o !! "latest_version" = Some (VLink latest) ∧
    attrs o !! "metadata" = Some (VMeta m).
Proof.
  unfold Package.new, construct, Package.__init__.
  unfold bind, setattr, lift, of_result, fresh, last_item. cbn.
  destruct (get_links find_all_a (repo_url +:+ name) w) as [[e|links] w1];
    cbn; [done|].
  destruct (sort_by_label links) as [e|sorted] eqn:Hs; cbn; [done|].
  destruct (last sorted) as [latest|] eqn:Hlast; cbn; [|done].
  destruct (Package.extract_metadata _ _ _ _ _) as [[e|m] w2] eqn:Hex;
    cbn; [done|].
  intros [= <-].
  pose proof (sort_by_label_perm _ _ Hs) as Hp.
  destruct latest.1 as [f|] eqn:Hf.
  2:{ destruct (extract_metadata_none_fails latest.2 w1) as [e He].
      rewrite Hex in He. done. }
  assert (Forall has_label links) as Hlab.
  { destruct (decide (Forall has_label links)) as [|Hnot]; [done|].
    exfalso. apply not_Forall_Exists in Hnot; [|apply _].
    apply Exists_exists in Hnot as (y & Hy & Hn).
    assert (y.1 = None) as Hy1.
    { destruct y.1 eqn:E; [|done]. destruct Hn. unfold has_label. by rewrite E. }
    destruct (decide (2 ≤ length links)%nat) as [Hlen|Hlen].
    - destruct (proj2 (sort_by_label_error links)) as [e He]; [eauto|congruence].
    - assert (length sorted = length links) as Hlen' by by rewrite Hp.
      destruct links as [|y' [|? ?]]; cbn in *; [by apply elem_of_nil in Hy| |lia].
      apply list_elem_of_singleton in Hy as ->.
      destruct sorted as [|z [|? ?]]; cbn in *; try lia.
      apply Permutation_singleton_l in Hp. simplify_eq; congruence. }
  destruct (sort_by_label_sorted links Hlab) as (s' & Hs' & _ & Hss).
  assert (s' = sorted) as -> by congruence.
  exists links, sorted, latest, f, m.
  repeat split; try done.
  destruct (Str.endswith f ".tar.gz") eqn:Hsd; [done|].
    destruct (Str.endswith f ".whl") eqn:Hwh; [done|].
    destruct (unsupported_suffix_never_returns SDist Wheel f latest.2 w1 Hsd Hwh)
      as [e He].
    rewrite Hex in He. done.
Qed.

(** X17. A construction sends at most two requests: the first always to
    [repo_url] and [name] written one after the other, with nothing put
    between them; the second, if there is one, to the [href] of a link of
    the page. *)
Theorem package_requests (name repo_url : string) (w : World) :
  ∃ rest,
    sent (new name repo_url w).2 = sent w ++ (repo_url +:+ name) :: rest ∧
    (rest = [] ∨
     ∃ links l, (get_links find_all_a (repo_url +:+ name) w).1 = inr links ∧
                l ∈ links ∧ rest = [l.2]).
Proof.
  unfold Package.new, construct, Package.__init__.
  unfold bind, setattr, lift, of_result, fresh, last_item. cbn.
  destruct (get_links_world find_all_a (repo_url +:+ name) w) as [recs Hw].
  destruct (get_links find_all_a (repo_url +:+ name) w) as [[e|links] w1];
    cbn in *; subst w1.
  { exists []. split; [done|by left]. }
  destruct (sort_by_label links) as [e|sorted] eqn:Hs; cbn.
  { exists []. split; [done|by left]. }
  destruct (last sorted) as [latest|] eqn:Hlast; cbn.
  2:{ exists []. split; [done|by left]. }
  pose proof (extract_metadata_sent SDist Wheel latest.1 latest.2
                (after w [repo_url +:+ name] recs)) as Hsent.
  destruct (Package.extract_metadata _ _ _ _ _) as [[e|m] w2]; cbn in *;
    rewrite Hsent;
    (destruct (mkdtemp _).1;
     [exists []; split; [done|by left]
     |exists [latest.2]; split; [by rewrite <-app_assoc|];
      right; exists links, latest; split; [done|]; split; [|done];
      rewrite <-(sort_by_label_perm _ _ Hs); by eapply last_Some_elem_of]).
Qed.

End PackageSteps.

(** * The further properties in the sample world *)

Lemma get_links_returns_pairs_witness :
  (get_links Sample.find_all_a "https://pypi.org/simple/pkg" Sample.cold).1 =
    inr [(Some "pkg-1.9.tar.gz", "https://files.example/pkg-1.9.tar.gz");
         (Some "pkg-1.10.tar.gz", "https://files.example/pkg-1.10.tar.gz")].
Proof.
  apply (get_links_returns_pairs Sample.find_all_a "https://pypi.org/simple/pkg"
           Sample.cold (mkResponse 200 Sample.versions_page Sample.versions_page)
           ["https://files.example/pkg-1.9.tar.gz";
            "https://files.example/pkg-1.10.tar.gz"]);
    [reflexivity|].
  vm_compute. repeat constructor.
Defined.

Lemma get_links_base_exception_witness :
  (get_links Sample.find_all_a "https://pypi.org/simple/pkg" Scenes.interrupted).1 =
    inl KeyboardInterrupt.
Proof.
  apply (get_links_base_exception Sample.find_all_a "https://pypi.org/simple/pkg"
           Scenes.interrupted KeyboardInterrupt);
    reflexivity.
Defined.

Lemma add_base_url_ignores_tail_witness :
  PackageCrawler._add_base_url (crawler_at ("https://pypi.org" +:+ "/simple")) "/simple/pkg-a/"
    = PackageCrawler._add_base_url (crawler_at "https://pypi.org") "/simple/pkg-a/".
Proof.
  apply (add_base_url_ignores_tail "https://pypi.org" "/simple" "/simple/pkg-a/").
  intros c. cbn.
  destruct (Ascii.eqb c "/"), (Ascii.eqb c "s"), (Ascii.eqb c "i"),
    (Ascii.eqb c "m"), (Ascii.eqb c "p"), (Ascii.eqb c "l"), (Ascii.eqb c "e");
    reflexivity || discriminate.
Defined.

Lemma extract_metadata_reads_download_witness :
  (Package.extract_metadata Sample.SDist Sample.Wheel
     (Some "pkg-1.9.tar.gz") "https://files.example/pkg-1.9.tar.gz" Sample.cold).1
    = Sample.SDist "/tmp/tmpk3x9_q0a/pkg-1.9.tar.gz" "sdist-bytes".
Proof.
  apply (extract_metadata_reads_download Sample.SDist Sample.Wheel
           "pkg-1.9.tar.gz" "https://files.example/pkg-1.9.tar.gz" Sample.cold
           "/tmp/tmpk3x9_q0a" (mkResponse 200 "sdist-bytes" "sdist-bytes"));
    by vm_compute.
Defined.

Lemma extract_metadata_download_error_witness :
  (Package.extract_metadata Sample.SDist Sample.Wheel
     (Some "gone-1.0.whl") "https://files.example/gone-1.0.whl" Sample.cold).1
    = inl (RequestException "Name or service not known").
Proof.
  apply (extract_metadata_download_error Sample.SDist Sample.Wheel
           (Some "gone-1.0.whl") "https://files.example/gone-1.0.whl" Sample.cold
           "/tmp/tmpk3x9_q0a");
    by vm_compute.
Defined.

Lemma extract_metadata_without_label_witness :
  (Package.extract_metadata Sample.SDist Sample.Wheel
     None "https://files.example/pkg-1.9.tar.gz" Sample.cold).1 =
    inl (TypeError "join() argument must be str, bytes, or os.PathLike object, not 'NoneType'") ∧
  sent (Package.extract_metadata Sample.SDist Sample.Wheel
          None "https://files.example/pkg-1.9.tar.gz" Sample.cold).2 =
    ["https://files.example/pkg-1.9.tar.gz"].
Proof.
  apply (extract_metadata_without_label Sample.SDist Sample.Wheel
           "https://files.example/pkg-1.9.tar.gz" Sample.cold
           "/tmp/tmpk3x9_q0a" (mkResponse 200 "sdist-bytes" "sdist-bytes"));
    by vm_compute.
Defined.

Lemma extract_metadata_absolute_label_witness :
  fs (Package.extract_metadata Sample.SDist Sample.Wheel
        (Some "/home/stray.tar.gz") "https://files.example/pkg-1.9.tar.gz"
        Sample.cold).2 !! ["home"; "stray.tar.gz"]
    = Some (File "sdist-bytes").
Proof.
  apply (extract_metadata_absolute_label Sample.SDist Sample.Wheel
           "/home/stray.tar.gz" "https://files.example/pkg-1.9.tar.gz" Sample.cold
           "/tmp/tmpk3x9_q0a" (mkResponse 200 "sdist-bytes" "sdist-bytes"));
    [by vm_compute..|].
  vm_compute. intros [k Hk]. discriminate.
Defined.

Lemma extract_metadata_no_residue_witness :
  fs (Package.extract_metadata Sample.SDist Sample.Wheel
        (Some "pkg-1.9.tar.gz") "https://files.example/pkg-1.9.tar.gz"
        Sample.cold).2 = fs Sample.cold.
Proof.
  apply (extract_metadata_no_residue Sample.SDist Sample.Wheel
           (Some "pkg-1.9.tar.gz") "https://files.example/pkg-1.9.tar.gz" Sample.cold).
  - unfold tree_shaped. apply (bool_decide_unpack _). by vm_compute.
  - intros f [= <-]. reflexivity.
Defined.

Lemma package_page_error_witness :
  Package.new Sample.find_all_a Sample.SDist Sample.Wheel
    "missing" Package.default_repo_url Sample.cold =
    (inl (UnboundLocalError "res"),
     (get_links Sample.find_all_a "https://pypi.org/simple/missing" Sample.cold).2).
Proof.
  apply (package_page_error Sample.find_all_a Sample.SDist Sample.Wheel
           "missing" Package.default_repo_url Sample.cold (UnboundLocalError "res")).
  reflexivity.
Defined.

Lemma package_unlabelled_link_witness :
  Package.new Scenes.find_all_a Sample.SDist Sample.Wheel
    "mixed" Package.default_repo_url Scenes.web =
    (inl (TypeError "'<' not supported between instances"),
     (get_links Scenes.find_all_a "https://pypi.org/simple/mixed" Scenes.web).2).
Proof.
  apply (package_unlabelled_link Scenes.find_all_a Sample.SDist Sample.Wheel
           "mixed" Package.default_repo_url Scenes.web
           [(None, "https://files.example/m-1.0.tar.gz");
            (Some "m-2.0.tar.gz", "https://files.example/m-2.0.tar.gz")]).
  - reflexivity.
  - cbn. lia.
  - exists (None, "https://files.example/m-1.0.tar.gz"). split; [|reflexivity].
    apply list_elem_of_here.
Defined.

Lemma latest_version_rightmost_witness :
  attrs (Package.__init__ Scenes.find_all_a Sample.SDist Sample.Wheel
           "twins" Package.default_repo_url
           (fresh "Package" Package.methods, Scenes.web)).2.1
    !! "latest_version"
    = Some (VLink (Some "t-1.0.whl", "https://mirror-b.example/t-1.0.whl")).
Proof.
  apply (latest_version_rightmost Scenes.find_all_a Sample.SDist Sample.Wheel
           "twins" Package.default_repo_url Scenes.web
           [(Some "t-1.0.whl", "https://mirror-a.example/t-1.0.whl");
            (Some "t-1.0.whl", "https://mirror-b.example/t-1.0.whl")]).
  - reflexivity.
  - repeat constructor; by eexists.
Defined.

Lemma package_constructed_shape_witness :
  ∃ links sorted latest f m,
    (get_links Sample.find_all_a (Package.default_repo_url +:+ "pkg") Sample.cold).1
      = inr links ∧
    Forall has_label links ∧
    sorted ≡ₚ links ∧ StronglySorted label_le sorted ∧
    last sorted = Some latest ∧ latest.1 = Some f ∧
    Str.endswith f ".tar.gz" || Str.endswith f ".whl" = true ∧
    attrs Scenes.built !! "name" = Some (VStr "pkg") ∧
    attrs Scenes.built !! "repo_url" = Some (VStr Package.default_repo_url) ∧
    attrs Scenes.built !! "package_versions" = Some (VLinks sorted) ∧
    attrs Scenes.built !! "latest_version" = Some (VLink latest) ∧
    attrs Scenes.built !! "metadata" = Some (VMeta m).
Proof.
  apply (package_constructed_shape Sample.find_all_a Sample.SDist Sample.Wheel
           "pkg" Package.default_repo_url Sample.cold Scenes.built).
  by vm_compute.
Defined.
